(** * detect_secrets.transformers.yaml

    A shallow embedding of [detect_secrets/transformers/yaml.py]: the
    [YAMLTransformer.parse_file] reconstruction loop, the breadth-first
    flattening of [YAMLFileParser.__iter__], the node rewriting of
    [_tag_dict_values] and the two shims installed on the PyYAML loader.

    Python strings are modelled as [string], read as sequences of code
    points below 256; [bytes] as [list byte]; Python exceptions as the
    [Raise] branch of [result].  PyYAML itself (scanner, parser, composer,
    constructor) is not part of the repository: the calls into it are
    the methods of the classes [SafeLoader] and [LoaderInternals], and
    instances of these classes say what PyYAML does on the documents of
    the examples. *)

From Stdlib Require Import Strings.String Strings.Ascii Strings.Byte List ZArith NArith Bool Arith Lia.
From Stdlib Require Import Sorting.Sorted Sorting.Permutation DecimalString Floats.PrimFloat.
Import ListNotations.
Set Warnings "-register-all".
Open Scope string_scope.
Open Scope Z_scope.

(* ================================================================== *)
(** ** Exceptions *)

Inductive exn : Type :=
| YAMLError        (* yaml.YAMLError and its subclasses *)
| ParsingError     (* transformers.exceptions.ParsingError *)
| TypeError
| KeyError
| IndexError
| AttributeError
| ValueError.

Inductive result (A : Type) : Type :=
| Ok (a : A)
| Raise (e : exn).
Arguments Ok {A} a.
Arguments Raise {A} e.

Definition bind {A B : Type} (m : result A) (k : A -> result B) : result B :=
  match m with
  | Ok a => k a
  | Raise e => Raise e
  end.

Notation "x <- m ;; k" := (bind m (fun x => k))
  (at level 61, m at next level, right associativity).

(* ================================================================== *)
(** ** Python strings *)

Module Py.

Definition dquote : ascii := "034"%char.
Definition backslash : ascii := "092"%char.
Definition hash : ascii := "035"%char.
Definition blank : ascii := "032"%char.

(** [str.isspace] on one character, which is also the class [\s] of [re]
    for [str] patterns (code points below 256). *)
Definition isspace (c : ascii) : bool :=
  let n := N_of_ascii c in
  ((9 <=? n) && (n <=? 13) || (28 <=? n) && (n <=? 32)
   || (n =? 133) || (n =? 160))%N.

(** [s.lstrip()], [s.rstrip()], [s.strip()]. *)
Fixpoint lstrip (s : string) : string :=
  match s with
  | EmptyString => EmptyString
  | String c s' => if isspace c then lstrip s' else s
  end.

Fixpoint rstrip (s : string) : string :=
  match s with
  | EmptyString => EmptyString
  | String c s' =>
      match rstrip s' with
      | EmptyString => if isspace c then EmptyString else String c EmptyString
      | r => String c r
      end
  end.

Definition strip (s : string) : string := rstrip (lstrip s).

(** [s.replace(old, new)] for a one-character [old]. *)
Fixpoint replace (old : ascii) (new : string) (s : string) : string :=
  match s with
  | EmptyString => EmptyString
  | String c s' =>
      if Ascii.eqb c old then new ++ replace old new s'
      else String c (replace old new s')
  end.

(** [sub in s] for strings. *)
Fixpoint contains (sub s : string) : bool :=
  String.prefix sub s
  || match s with
     | EmptyString => false
     | String _ s' => contains sub s'
     end.

(** The line boundaries of [str.splitlines] below code point 256. *)
Definition is_linebreak (c : ascii) : bool :=
  let n := N_of_ascii c in
  ((10 <=? n) && (n <=? 13) || (28 <=? n) && (n <=? 30) || (n =? 133))%N.

(** [s.splitlines()]: [cur] is the line read so far. A carriage return
    directly followed by a line feed is one boundary; there is no empty
    last line after a final boundary. *)
Fixpoint splitlines_aux (s : string) (cur : string) : list string :=
  match s with
  | EmptyString =>
      match cur with
      | EmptyString => []
      | _ => [cur]
      end
  | String c s' =>
      if is_linebreak c then
        match c, s' with
        | "013"%char, String "010"%char s'' => cur :: splitlines_aux s'' EmptyString
        | _, _ => cur :: splitlines_aux s' EmptyString
        end
      else splitlines_aux s' (cur ++ String c EmptyString)
  end.

Definition splitlines (s : string) : list string := splitlines_aux s EmptyString.

(** [str(n)] for an integer. *)
Definition str_of_int (z : Z) : string := NilZero.string_of_int (Z.to_int z).

(** [l[i]] on a list, negative indices counting from the end. *)
Definition getitem {A : Type} (l : list A) (i : Z) : result A :=
  let n := Z.of_nat (length l) in
  let j := if i <? 0 then i + n else i in
  if (j <? 0) || (n <=? j) then Raise IndexError
  else match nth_error l (Z.to_nat j) with
       | Some a => Ok a
       | None => Raise IndexError
       end.

End Py.

(* ================================================================== *)
(** ** [base64.b64encode(b).decode()] *)

Module Base64.

Definition alphabet : string :=
  "ABCDEFGHIJKLMNOPQRSTUVWXYZabcdefghijklmnopqrstuvwxyz0123456789+/".

Definition pad : ascii := "061"%char.

Definition digit (n : N) : ascii :=
  match String.get (N.to_nat n) alphabet with
  | Some c => c
  | None => pad
  end.

(** Three bytes give four digits; one or two left-over bytes give two or
    three digits and the padding. *)
Fixpoint b64encode (bs : list byte) : string :=
  match bs with
  | [] => EmptyString
  | [a] =>
      let x := Byte.to_N a in
      String (digit (x / 4)) (String (digit (x mod 4 * 16))
        (String pad (String pad EmptyString)))
  | [a; b] =>
      let x := Byte.to_N a in
      let y := Byte.to_N b in
      String (digit (x / 4)) (String (digit (x mod 4 * 16 + y / 16))
        (String (digit (y mod 16 * 4)) (String pad EmptyString)))
  | a :: b :: c :: rest =>
      let x := Byte.to_N a in
      let y := Byte.to_N b in
      let z := Byte.to_N c in
      String (digit (x / 4)) (String (digit (x mod 4 * 16 + y / 16))
        (String (digit (y mod 16 * 4 + z / 64)) (String (digit (z mod 64))
          (b64encode rest))))
  end%N.

End Base64.

(* ================================================================== *)
(** ** Regular expressions: the fragment of [re] the module uses *)

Module Re.

Inductive regex : Type :=
| Class (p : ascii -> bool)   (* one character of a class; a literal *)
| Seq (r1 r2 : regex)
| Star (r : regex)            (* greedy [r*] *)
| Plus (r : regex)            (* greedy [r+] *)
| Group (r : regex).

(** The greedy loop of [r*]: another round of [step] is tried first, and
    counts only if it consumes input; the rest of the pattern [k] is tried
    when no further round leads to a match. *)
Fixpoint star_loop (step : string -> (string -> option string) -> option string)
    (n : nat) (s : string) (k : string -> option string) : option string :=
  match n with
  | O => k s
  | S n' =>
      match step s (fun s' =>
                      if (String.length s' <? String.length s)%nat
                      then star_loop step n' s' k else None) with
      | Some rest => Some rest
      | None => k s
      end
  end.

(** Backtracking match of [r] at the start of [s]; [k] is the rest of the
    pattern and returns what is left of the input after the whole match. *)
Fixpoint matches (r : regex) (s : string) (k : string -> option string)
  : option string :=
  match r with
  | Class p =>
      match s with
      | String c s' => if p c then k s' else None
      | EmptyString => None
      end
  | Seq r1 r2 => matches r1 s (fun s' => matches r2 s' k)
  | Star r' => star_loop (matches r') (String.length s) s k
  | Plus r' =>
      matches r' s (fun s' => star_loop (matches r') (String.length s') s' k)
  | Group r' => matches r' s k
  end.

(** [pattern.search(s).group(0)], [None] when there is no match: the
    first start position from the left at which the pattern matches. *)
Fixpoint search (r : regex) (s : string) : option string :=
  match matches r s Some with
  | Some rest => Some (substring 0 (String.length s - String.length rest) s)
  | None =>
      match s with
      | EmptyString => None
      | String _ s' => search r s'
      end
  end.

End Re.

(** The compiled pattern of [_yaml_comment_regex()]: one group holding one
    or more [\s], then [#], then any number of characters that are [\S]
    or a space. *)
Definition _yaml_comment_regex : Re.regex :=
  Re.Group
    (Re.Seq (Re.Plus (Re.Class Py.isspace))
       (Re.Seq (Re.Class (Ascii.eqb Py.hash))
          (Re.Star (Re.Class (fun c => negb (Py.isspace c) || Ascii.eqb c Py.blank))))).

(* ================================================================== *)
(** ** The values [yaml.SafeLoader] constructs *)

Inductive PyValue : Type :=
| PyNone
| PyBool (b : bool)
| PyInt (z : Z)
| PyFloat (f : PrimFloat.float)
| PyStr (s : string)
| PyBytes (b : list byte)
| PyDate (iso : string)                 (* datetime.date, datetime.datetime *)
| PyList (l : list PyValue)
| PyTuple (l : list PyValue)            (* the pairs of !!omap and !!pairs *)
| PySet (l : list PyValue)
| PyDict (l : list (PyValue * PyValue)). (* in insertion order *)

(** [bool(item)] *)
Definition truthy (item : PyValue) : bool :=
  match item with
  | PyNone => false
  | PyBool b => b
  | PyInt z => negb (z =? 0)
  | PyFloat f => negb (PrimFloat.eqb f PrimFloat.zero)
  | PyStr s => negb (String.eqb s EmptyString)
  | PyBytes [] => false
  | PyBytes _ => true
  | PyDate _ => true
  | PyList [] | PyTuple [] | PySet [] | PyDict [] => false
  | PyList _ | PyTuple _ | PySet _ | PyDict _ => true
  end.

(** [item == k] for a string [k]: only an equal string is equal to it. *)
Definition eq_str (k : string) (item : PyValue) : bool :=
  match item with
  | PyStr s => String.eqb s k
  | _ => false
  end.

(** [k in item] for a string [k]: a substring test on a string, a test of
    the elements of a list, tuple or set, a test of the keys of a dict; a
    [TypeError] on [bytes] and on everything that is not a container. *)
Definition py_in (k : string) (item : PyValue) : result bool :=
  match item with
  | PyStr s => Ok (Py.contains k s)
  | PyList l | PyTuple l | PySet l => Ok (existsb (eq_str k) l)
  | PyDict l => Ok (existsb (fun kv => eq_str k (fst kv)) l)
  | _ => Raise TypeError
  end.

(** [item[k]] for a string [k] *)
Definition py_getitem (item : PyValue) (k : string) : result PyValue :=
  match item with
  | PyDict l =>
      match find (fun kv => eq_str k (fst kv)) l with
      | Some kv => Ok (snd kv)
      | None => Raise KeyError
      end
  | _ => Raise TypeError
  end.

(** The value of an [int] ([bool] is a subclass of it); what an index
    computation does with anything else. *)
Definition py_int (v : PyValue) : result Z :=
  match v with
  | PyInt z => Ok z
  | PyBool b => Ok (if b then 1 else 0)
  | _ => Raise TypeError
  end.

Definition isinstance_str (item : PyValue) : bool :=
  match item with
  | PyStr _ => true
  | _ => false
  end.

Fixpoint chars (s : string) : list PyValue :=
  match s with
  | EmptyString => []
  | String c s' => PyStr (String c EmptyString) :: chars s'
  end.

(** What the two nested [try] blocks add to the queue:
    [to_search.extend(item.values())] and, on [AttributeError],
    [to_search.extend(item)]; iterating anything else is a [TypeError]. *)
Definition extend_items (item : PyValue) : result (list PyValue) :=
  match item with
  | PyDict l => Ok (map snd l)
  | PyList l | PyTuple l | PySet l => Ok l
  | PyStr s => Ok (chars s)
  | PyBytes b => Ok (map (fun x => PyInt (Z.of_N (Byte.to_N x))) b)
  | _ => Raise TypeError
  end.

(** [class YAMLValue(NamedTuple)]. [line_number] holds the integer value of
    [item['__line__']]. *)
Record YAMLValue : Type := mkYAMLValue {
  key : PyValue;
  value : PyValue;
  line_number : Z;
  line : string
}.

(** The [yield YAMLValue(...)] expression: the four arguments are evaluated
    in this order. *)
Definition make_value (lines : list string) (item : PyValue) : result YAMLValue :=
  k <- py_getitem item "__original_key__" ;;
  v <- py_getitem item "__value__" ;;
  ln <- py_getitem item "__line__" ;;
  n <- py_int ln ;;
  l <- Py.getitem lines (n - 1) ;;
  Ok (mkYAMLValue k v n l).

(** One round of the [while to_search] loop on the item taken from the
    left of the queue. *)
Inductive step : Type :=
| Skip                              (* continue *)
| Extend (items : list PyValue)     (* to_search.extend(...); continue *)
| Yield (v : YAMLValue)
| Abort (e : exn).                  (* an exception leaves the generator *)

Definition visit (lines : list string) (item : PyValue) : step :=
  if negb (truthy item) then Skip
  else
    match py_in "__line__" item with
    | Raise TypeError => Skip
    | Raise e => Abort e
    | Ok false =>
        if isinstance_str item then Skip
        else match extend_items item with
             | Ok items => Extend items
             | Raise TypeError => Skip
             | Raise e => Abort e
             end
    | Ok true =>
        match make_value lines item with
        | Ok v => Yield v
        | Raise e => Abort e
        end
    end.

(** The number of values in a value: what the queue loses at each round. *)
Fixpoint size (v : PyValue) : nat :=
  match v with
  | PyList l | PyTuple l | PySet l => S (list_sum (map size l))
  | PyDict l =>
      S (list_sum (map (fun kv : PyValue * PyValue =>
                          let (k, x) := kv in (size k + size x)%nat) l))
  | _ => 1%nat
  end.

Definition queue_size (q : list PyValue) : nat := list_sum (map size q).

(** The [while to_search] loop, all yielded values collected; [rounds]
    bounds the number of rounds. *)
Fixpoint search_loop (rounds : nat) (lines : list string) (to_search : list PyValue)
  : result (list YAMLValue) :=
  match rounds with
  | O => Ok []
  | S rounds' =>
      match to_search with
      | [] => Ok []
      | item :: rest =>
          match visit lines item with
          | Skip => search_loop rounds' lines rest
          | Extend items => search_loop rounds' lines (rest ++ items)
          | Yield v =>
              vs <- search_loop rounds' lines rest ;;
              Ok (v :: vs)
          | Abort e => Raise e
          end
      end
  end.

Definition flatten (lines : list string) (to_search : list PyValue)
  : result (list YAMLValue) :=
  search_loop (queue_size to_search) lines to_search.

(** [yaml.SafeLoader(content)] with the two shims installed, run by
    [get_single_data()]: PyYAML, outside the repository. *)
Class SafeLoader : Type := {
  get_single_data : string -> result PyValue
}.

(** What an f-string field prints, [format(x, '')]: the string itself for
    a string; [py_str] is Python's [str(x)] for the other values. *)
Class Formatter : Type := {
  py_str : PyValue -> string
}.

Definition format_field `{Formatter} (x : PyValue) : string :=
  match x with
  | PyStr s => s
  | _ => py_str x
  end.

Record NamedIO : Type := mkNamedIO {
  name : string;
  read : string
}.

(** [YAMLFileParser.__iter__], run to its end as [sorted] does. *)
Definition YAMLFileParser_iter `{SafeLoader} (content : string)
  : result (list YAMLValue) :=
  let lines := Py.splitlines content in
  data <- get_single_data content ;;
  flatten lines [data].

(** [sorted(items, key=lambda x: x.line_number)]: stable. *)
Fixpoint insert_by_line (x : YAMLValue) (l : list YAMLValue) : list YAMLValue :=
  match l with
  | [] => [x]
  | y :: l' =>
      if line_number x <=? line_number y then x :: l
      else y :: insert_by_line x l'
  end.

Definition sorted (items : list YAMLValue) : list YAMLValue :=
  fold_right insert_by_line [] items.

(** [while len(lines) < n: lines.append('')] *)
Definition pad_lines (lines : list string) (n : Z) : list string :=
  lines ++ repeat EmptyString (Z.to_nat (n - Z.of_nat (length lines))).

Definition quote : string := String Py.dquote EmptyString.
Definition escaped_quote : string := String Py.backslash quote.

Definition comment_of (source_line : string) : string :=
  match Re.search _yaml_comment_regex (Py.strip source_line) with
  | Some group0 => group0
  | None => EmptyString
  end.

(** The text of the line appended for one item. *)
Definition render `{Formatter} (item : YAMLValue) : result string :=
  let v :=
    match value item with
    | PyBytes b => PyStr (Base64.b64encode b)
    | v => v
    end in
  let comment := comment_of (line item) in
  match v with
  | PyStr s =>
      let s' := Py.replace Py.dquote escaped_quote s in
      Ok (format_field (key item) ++ ": " ++ quote ++ s' ++ quote ++ comment)
  | PyDate _ => Raise TypeError     (* date.replace takes integers *)
  | _ => Raise AttributeError       (* no replace method *)
  end.

(** The [for item in items] loop of [parse_file]. *)
Fixpoint reconstruct `{Formatter} (items : list YAMLValue) (lines : list string)
  : result (list string) :=
  match items with
  | [] => Ok lines
  | item :: items' =>
      let lines := pad_lines lines (line_number item - 1) in
      text <- render item ;;
      reconstruct items' (lines ++ [text])
  end.

(** [YAMLTransformer.parse_file] *)
Definition parse_file `{SafeLoader} `{Formatter} (file : NamedIO)
  : result (list string) :=
  match YAMLFileParser_iter (read file) with
  | Raise YAMLError => Raise ParsingError
  | Raise e => Raise e
  | Ok yielded => reconstruct (sorted yielded) []
  end.

(* ================================================================== *)
(** ** The composed document: [yaml.nodes] *)

Record Mark : Type := mkMark {
  mark_line : Z;
  mark_column : Z
}.

Inductive NodeClass : Type := ScalarNode | SequenceNode | MappingNode.

(** What the [value] attribute of a node holds: the text of a scalar, the
    nodes of a sequence, the pairs of a mapping. The attribute is not typed
    by the class of the node: [_create_key_value_pair_for_mapping_node_value]
    takes [value: Any]. *)
Inductive Payload (N : Type) : Type :=
| VStr (s : string)
| VSeq (items : list N)
| VMap (pairs : list (N * N)).
Arguments VStr {N} s.
Arguments VSeq {N} items.
Arguments VMap {N} pairs.

(** A node; [__line__] is the attribute the shim adds, absent on a node
    that no shim has stamped. [flow_style] is the attribute of a sequence
    or mapping node; on a scalar node the field stands for nothing and is
    not read, see [get_flow_style]. *)
Inductive Node : Type := mkNode {
  node_class : NodeClass;
  tag : string;
  node_value : Payload Node;
  start_mark : option Mark;
  end_mark : option Mark;
  flow_style : option bool;
  __line__ : option Z
}.

(** [s.endswith(suffix)] *)
Definition endswith (s suffix : string) : bool :=
  let n := String.length s in
  let m := String.length suffix in
  (m <=? n)%nat && String.eqb (substring (n - m) m s) suffix.

Definition str_tag : string := "tag:yaml.org,2002:str".
Definition int_tag : string := "tag:yaml.org,2002:int".

(** [yaml.nodes.ScalarNode(tag=..., value=...)] and
    [yaml.nodes.MappingNode(tag=..., value=...)], the other arguments at
    their default [None]. *)
Definition new_ScalarNode (t : string) (v : Payload Node) : Node :=
  mkNode ScalarNode t v None None None None.

Definition new_MappingNode (t : string) (v : list (Node * Node)) : Node :=
  mkNode MappingNode t (VMap v) None None None None.

Definition _create_key_value_pair_for_mapping_node_value
    (key : string) (value : Payload Node) (tag : string) : Node * Node :=
  (new_ScalarNode str_tag (VStr key), new_ScalarNode tag value).

(** [value.tag.endswith(':str') or value.tag.endswith(':binary')] *)
Definition is_str_or_binary (value : Node) : bool :=
  endswith (tag value) ":str" || endswith (tag value) ":binary".

(** The [augmented_string] built for one pair; [str(value.__line__)] needs
    the attribute. *)
Definition augmented_string (map_tag : string) (key value : Node) : result Node :=
  match __line__ value with
  | None => Raise AttributeError
  | Some n =>
      Ok (new_MappingNode map_tag
            [ _create_key_value_pair_for_mapping_node_value
                "__value__" (node_value value) (tag value);
              _create_key_value_pair_for_mapping_node_value
                "__line__" (VStr (Py.str_of_int n)) int_tag;
              _create_key_value_pair_for_mapping_node_value
                "__original_key__" (node_value key) str_tag ])
  end.

(** The body of [for key, value in map_node.value]. *)
Fixpoint tag_pairs (map_tag : string) (pairs : list (Node * Node))
  : result (list (Node * Node)) :=
  match pairs with
  | [] => Ok []
  | (key, value) :: pairs' =>
      entry <- (if negb (is_str_or_binary value) then Ok (key, value)
                else (a <- augmented_string map_tag key value ;; Ok (key, a))) ;;
      new_values <- tag_pairs map_tag pairs' ;;
      Ok (entry :: new_values)
  end.

(** What [for key, value in map_node.value] iterates over: unpacking one
    character of a text is a [ValueError], unpacking a node a [TypeError]. *)
Definition iter_pairs (v : Payload Node) : result (list (Node * Node)) :=
  match v with
  | VMap pairs => Ok pairs
  | VStr EmptyString => Ok []
  | VStr _ => Raise ValueError
  | VSeq [] => Ok []
  | VSeq _ => Raise TypeError
  end.

(** [map_node.flow_style]: an attribute of the collection nodes; a
    [ScalarNode] has [style] in its place, and reading [flow_style] from it
    is an [AttributeError]. *)
Definition get_flow_style (node : Node) : result (option bool) :=
  match node_class node with
  | ScalarNode => Raise AttributeError
  | SequenceNode | MappingNode => Ok (flow_style node)
  end.

(** The loop runs first; the arguments of the [MappingNode] that is
    returned are read after it. *)
Definition _tag_dict_values (map_node : Node) : result Node :=
  pairs <- iter_pairs (node_value map_node) ;;
  new_values <- tag_pairs (tag map_node) pairs ;;
  style <- get_flow_style map_node ;;
  Ok (mkNode MappingNode (tag map_node) (VMap new_values)
        (start_mark map_node) (end_mark map_node) style None).

(* ================================================================== *)
(** ** The loader and the two shims *)

Inductive TokenClass : Type :=
| FlowEntryToken
| KeyToken
| ValueToken
| ScalarToken
| FlowMappingStartToken
| FlowMappingEndToken
| OtherToken.

Definition isinstance (c choice : TokenClass) : bool :=
  match c, choice with
  | FlowEntryToken, FlowEntryToken
  | KeyToken, KeyToken
  | ValueToken, ValueToken
  | ScalarToken, ScalarToken
  | FlowMappingStartToken, FlowMappingStartToken
  | FlowMappingEndToken, FlowMappingEndToken
  | OtherToken, OtherToken => true
  | _, _ => false
  end.

Record Token : Type := mkToken {
  token_class : TokenClass;
  token_start_mark : Mark
}.

(** The attributes of [yaml.SafeLoader] the shims read: the line cursor of
    the reader, the marks of the collections being parsed, the queue of
    scanned tokens; [internal] is everything else PyYAML keeps. *)
Record Loader (Internal : Type) : Type := mkLoader {
  loader_line : Z;
  marks : list Mark;
  tokens : list Token;
  internal : Internal
}.
Arguments mkLoader {Internal}.
Arguments loader_line {Internal}.
Arguments marks {Internal}.
Arguments tokens {Internal}.
Arguments internal {Internal}.

Record YAMLFileParser (Internal : Type) : Type := mkYAMLFileParser {
  content : string;
  loader : Loader Internal;
  is_inline_flow_mapping_key : bool
}.
Arguments mkYAMLFileParser {Internal}.
Arguments content {Internal}.
Arguments loader {Internal}.
Arguments is_inline_flow_mapping_key {Internal}.

Definition set_loader {I : Type} (self : YAMLFileParser I) (l : Loader I)
  : YAMLFileParser I :=
  mkYAMLFileParser (content self) l (is_inline_flow_mapping_key self).

Definition set_is_inline_flow_mapping_key {I : Type} (self : YAMLFileParser I)
    (b : bool) : YAMLFileParser I :=
  mkYAMLFileParser (content self) (loader self) b.

Definition set___line__ (node : Node) (n : Z) : Node :=
  mkNode (node_class node) (tag node) (node_value node) (start_mark node)
    (end_mark node) (flow_style node) (Some n).

(** The methods of PyYAML the shims call. [peek_token] may scan further and
    returns [None] when no token is left; [Parser.parse_flow_mapping_key]
    works on the loader alone; [Composer.compose_node] composes the children
    through [self.compose_node], that is through the shim, and so works on
    the whole parser state. *)
Class LoaderInternals (Internal Event : Type) : Type := {
  peek_token : Loader Internal -> result (option Token * Loader Internal);
  Parser_parse_flow_mapping_key :
    bool -> Loader Internal -> result (Event * Loader Internal);
  Composer_compose_node :
    option Node -> option Node -> YAMLFileParser Internal ->
    result (Node * YAMLFileParser Internal)
}.

(** The [for choice in choices] loop of [_check_next_tokens_shim]. *)
Fixpoint check_choices (toks : list Token) (choices : list TokenClass)
    (i : nat) (result : bool) : bool :=
  match choices with
  | [] => result
  | choice :: choices' =>
      if (i <? length toks)%nat then
        let result :=
          result && match nth_error toks i with
                    | Some t => isinstance (token_class t) choice
                    | None => false
                    end in
        check_choices toks choices' (S i) result
      else check_choices toks choices' i result
  end.

Definition _check_next_tokens_shim {I : Type} (self : YAMLFileParser I)
    (choices : list TokenClass) : bool :=
  match tokens (loader self) with
  | [] => false
  | _ =>
      match choices with
      | [] => true
      | _ => check_choices (tokens (loader self)) choices 0 true
      end
  end.

(** The value of [is_inline_dictionary], with the state [peek_token] leaves:
    [first and marks[-1].line == peek_token().start_mark.line
     or self._check_next_tokens_shim(FlowEntryToken, KeyToken)]. *)
Definition is_inline_dictionary {I E : Type} `{LoaderInternals I E}
    (first : bool) (self : YAMLFileParser I) : result (bool * YAMLFileParser I) :=
  if first then
    m <- Py.getitem (marks (loader self)) (-1) ;;
    peeked <- peek_token (loader self) ;;
    let self := set_loader self (snd peeked) in
    match fst peeked with
    | None => Raise AttributeError
    | Some t =>
        if mark_line m =? mark_line (token_start_mark t) then Ok (true, self)
        else Ok (_check_next_tokens_shim self [FlowEntryToken; KeyToken], self)
    end
  else Ok (_check_next_tokens_shim self [FlowEntryToken; KeyToken], self).

Definition _parse_flow_mapping_key_shim {I E : Type} `{LoaderInternals I E}
    (first : bool) (self : YAMLFileParser I) : result (E * YAMLFileParser I) :=
  decided <- is_inline_dictionary first self ;;
  let self := set_is_inline_flow_mapping_key (snd decided) (fst decided) in
  parsed <- Parser_parse_flow_mapping_key first (loader self) ;;
  Ok (fst parsed, set_loader self (snd parsed)).

(** The line read before the node is composed. *)
Definition stamp_line {I : Type} (self : YAMLFileParser I) : result Z :=
  if is_inline_flow_mapping_key self then
    m <- Py.getitem (marks (loader self)) (-1) ;;
    Ok (mark_line m)
  else Ok (loader_line (loader self)).

Definition _compose_node_shim {I E : Type} `{LoaderInternals I E}
    (parent index : option Node) (self : YAMLFileParser I)
  : result (Node * YAMLFileParser I) :=
  line <- stamp_line self ;;
  composed <- Composer_compose_node parent index self ;;
  let node := set___line__ (fst composed) (line + 1) in
  let self := snd composed in
  if endswith (tag node) ":map" then
    let self := set_is_inline_flow_mapping_key self false in
    tagged <- _tag_dict_values node ;;
    Ok (tagged, self)
  else Ok (node, self).

(* ================================================================== *)
(** ** Reference readings of the comment pattern *)

Fixpoint take_while (p : ascii -> bool) (s : string) : string :=
  match s with
  | EmptyString => EmptyString
  | String c s' => if p c then String c (take_while p s') else EmptyString
  end.

Fixpoint drop_while (p : ascii -> bool) (s : string) : string :=
  match s with
  | EmptyString => EmptyString
  | String c s' => if p c then drop_while p s' else s
  end.

(** A character that is not whitespace, or a space. *)
Definition comment_char (c : ascii) : bool :=
  negb (Py.isspace c) || Ascii.eqb c Py.blank.

(** A comment at the very start of [s]: a run of whitespace directly
    followed by [#]; the text is the run, the [#] and the characters after
    it up to the first whitespace character that is not a space. *)
Definition comment_here (s : string) : option string :=
  match s with
  | EmptyString => None
  | String c _ =>
      if Py.isspace c then
        match drop_while Py.isspace s with
        | String h t =>
            if Ascii.eqb Py.hash h
            then Some (take_while Py.isspace s
                         ++ String Py.hash (take_while comment_char t))
            else None
        | EmptyString => None
        end
      else None
  end.

(** The first comment from the left. *)
Fixpoint first_comment (s : string) : option string :=
  match comment_here s with
  | Some c => Some c
  | None =>
      match s with
      | EmptyString => None
      | String _ s' => first_comment s'
      end
  end.

(* ================================================================== *)
(** ** Documents and states used in the examples *)

Definition nl : string := String "010"%char EmptyString.
Definition tab : string := String "009"%char EmptyString.

(** The dict the constructor builds from an [augmented_string] mapping. *)
Definition annotated (k : string) (v : PyValue) (n : Z) : PyValue :=
  PyDict [ (PyStr "__value__", v);
           (PyStr "__line__", PyInt n);
           (PyStr "__original_key__", PyStr k) ].

(** A loader known on one document: [data] is what PyYAML, with the shims,
    constructs from [doc]. *)
Definition loads (doc : string) (data : result PyValue) : SafeLoader :=
  {| get_single_data := fun text =>
       if String.eqb text doc then data else Raise YAMLError |}.

(** No value other than a string is printed in the examples. *)
Definition strings_only : Formatter := {| py_str := fun _ => EmptyString |}.

Definition max_line (items : list YAMLValue) : Z :=
  fold_right Z.max 0 (map line_number items).

Definition is_text (v : PyValue) : bool :=
  match v with
  | PyStr _ | PyBytes _ => true
  | _ => false
  end.

(** [a: b] on line 1, an integer on line 2. *)
Definition doc_short : string := "a: b" ++ nl ++ "c: 1" ++ nl.
Definition data_short : PyValue :=
  PyDict [ (PyStr "a", annotated "a" (PyStr "b") 1); (PyStr "c", PyInt 1) ].

(** A nested mapping before a top-level string: the traversal meets line 3
    before line 2. *)
Definition doc_nested : string :=
  "a:" ++ nl ++ "  x: three" ++ nl ++ "b: two # c" ++ nl.
Definition data_nested : PyValue :=
  PyDict [ (PyStr "a", PyDict [ (PyStr "x", annotated "x" (PyStr "three") 2) ]);
           (PyStr "b", annotated "b" (PyStr "two") 3) ].

Definition doc_binary : string := "data: !!binary aGVsbG8=".
Definition data_binary : PyValue :=
  PyDict [ (PyStr "data",
            annotated "data" (PyBytes [x68; x65; x6c; x6c; x6f]%byte) 1) ].

Definition line_secret : string := "key: value # secret here".
Definition line_tabbed : string := "key: value # a" ++ tab ++ "b".

(** A document that uses the three marker names as its own keys, with
    integer values; the same with a fourth key. *)
Definition data_own_markers (n : Z) : PyValue :=
  PyDict [ (PyStr "__original_key__", PyInt 1);
           (PyStr "__value__", PyInt 2);
           (PyStr "__line__", PyInt n) ].
Definition data_four_fields : PyValue :=
  PyDict [ (PyStr "__original_key__", PyInt 1);
           (PyStr "__value__", PyInt 2);
           (PyStr "__line__", PyInt 1);
           (PyStr "extra", PyInt 3) ].

(** A loader with no internals of its own: [peek_token] shows the head of
    the queue, the parser and the composer leave the state as it is and
    the composer returns [node]. *)
Definition fixed_internals (node : Node) : LoaderInternals unit unit :=
  {| peek_token := fun l => Ok (hd_error (tokens l), l);
     Parser_parse_flow_mapping_key := fun _ l => Ok (tt, l);
     Composer_compose_node := fun _ _ self => Ok (node, self) |}.

Definition scalar (t text : string) (n : option Z) : Node :=
  mkNode ScalarNode t (VStr text) None None None n.

(** A parser state inside a flow mapping opened on line 0: the cursor is
    on line [cursor], [toks] are the scanned tokens. *)
Definition in_flow_mapping (cursor : Z) (toks : list Token) (flag : bool)
  : YAMLFileParser unit :=
  mkYAMLFileParser EmptyString (mkLoader cursor [mkMark 0 0] toks tt) flag.

(** A separator on line 0 and the scalar of a key on line 2. *)
Definition separator : Token := mkToken FlowEntryToken (mkMark 0 11).
Definition next_scalar : Token := mkToken ScalarToken (mkMark 2 0).

(** [a: !!str [x]]: a sequence node that carries the string tag. *)
Definition tagged_sequence : Node :=
  mkNode SequenceNode str_tag (VSeq [scalar str_tag "x" (Some 1)])
    None None (Some true) (Some 1).
Definition map_tag : string := "tag:yaml.org,2002:map".
Definition mapping_with_tagged_sequence : Node :=
  mkNode MappingNode map_tag
    (VMap [ (scalar str_tag "a" (Some 1), tagged_sequence) ])
    None None (Some false) (Some 1).
Definition mapping_plain : Node :=
  mkNode MappingNode map_tag
    (VMap [ (scalar str_tag "a" (Some 1), scalar str_tag "b" (Some 1));
            (scalar str_tag "c" (Some 2), scalar int_tag "1" (Some 2)) ])
    None None (Some false) (Some 1).

(* ================================================================== *)
(** ** Notions used in the statements *)

Definition line_le (a b : YAMLValue) : Prop := line_number a <= line_number b.
Definition line_lt (a b : YAMLValue) : Prop := line_number a < line_number b.

(** The text of a string or bytes value: [bytes] in base64. *)
Definition text_of (v : PyValue) : string :=
  match v with
  | PyStr s => s
  | PyBytes b => Base64.b64encode b
  | _ => EmptyString
  end.

(** The [value.replace] call: every double quote becomes a backslash and
    a double quote. *)
Definition escape (s : string) : string :=
  Py.replace Py.dquote escaped_quote s.

(** The f-string appended to [lines]: the key, a colon and a space, the
    escaped value between double quotes, the comment. *)
Definition rendered `{Formatter} (item : YAMLValue) : string :=
  format_field (key item) ++ ": " ++ quote ++ escape (text_of (value item))
    ++ quote ++ comment_of (line item).

(** [{a: x, b: y}]: two values on line 1. *)
Definition doc_flow : string := "{a: x, b: y}".
Definition data_flow : PyValue :=
  PyDict [ (PyStr "a", annotated "a" (PyStr "x") 1);
           (PyStr "b", annotated "b" (PyStr "y") 1) ].

(** The queue of scanned tokens begins with a flow-entry separator, and
    its second token, when one has been scanned, is a key marker. *)
Definition separator_then_key (toks : list Token) : bool :=
  match toks with
  | [] => false
  | [t] => isinstance (token_class t) FlowEntryToken
  | t1 :: t2 :: _ =>
      isinstance (token_class t1) FlowEntryToken
      && isinstance (token_class t2) KeyToken
  end.

(** The two first scanned tokens are a flow-entry separator and a key
    marker. *)
Definition two_tokens_separator_key (toks : list Token) : bool :=
  match toks with
  | t1 :: t2 :: _ =>
      isinstance (token_class t1) FlowEntryToken
      && isinstance (token_class t2) KeyToken
  | _ => false
  end.

(** The three pairs of an [augmented_string] mapping. *)
Definition three_fields (key value : Node) (n : Z) : list (Node * Node) :=
  [ (new_ScalarNode str_tag (VStr "__value__"),
     new_ScalarNode (tag value) (node_value value));
    (new_ScalarNode str_tag (VStr "__line__"),
     new_ScalarNode int_tag (VStr (Py.str_of_int n)));
    (new_ScalarNode str_tag (VStr "__original_key__"),
     new_ScalarNode str_tag (node_value key)) ].

(** What [_tag_dict_values] makes of one pair of a mapping tagged [t]. *)
Definition rewritten_pair (t : string) (kv kv' : Node * Node) : Prop :=
  fst kv' = fst kv
  /\ if is_str_or_binary (snd kv)
     then exists n, __line__ (snd kv) = Some n
                    /\ snd kv' = new_MappingNode t (three_fields (fst kv) (snd kv) n)
     else snd kv' = snd kv.

Definition doc_own_markers (n : Z) : string :=
  "__original_key__: 1" ++ nl ++ "__value__: 2" ++ nl
    ++ "__line__: " ++ Py.str_of_int n ++ nl.

Definition doc_four_fields : string :=
  "__original_key__: 1" ++ nl ++ "__value__: 2" ++ nl
    ++ "__line__: 1" ++ nl ++ "extra: 3" ++ nl.

(** A document whose one key is named like the line marker. *)
Definition doc_line_only : string := "__line__: 5" ++ nl.
Definition data_line_only : PyValue := PyDict [ (PyStr "__line__", PyInt 5) ].

(** A comment with a tab in it. *)
Definition doc_tabbed : string := line_tabbed ++ nl.
Definition data_tabbed : PyValue :=
  PyDict [ (PyStr "key", annotated "key" (PyStr "value") 1) ].

(** A document that is one plain scalar. *)
Definition doc_scalar : string := "x__line__y" ++ nl.
Definition data_scalar : PyValue := PyStr "x__line__y".

(* ================================================================== *)
(** ** Notions used in the further properties *)

(** A value that is no container and passes no marker test: a number,
    [None], bytes, a date, a string without the marker. *)
Definition plain_scalar (v : PyValue) : bool :=
  match v with
  | PyList _ | PyTuple _ | PySet _ | PyDict _ => false
  | PyStr s => negb (Py.contains "__line__" s)
  | _ => true
  end.

(** The dict of a mapping all of whose values were rewritten: one entry
    (key, value, line) per pair. *)
Definition flat_mapping (entries : list (string * PyValue * Z)) : PyValue :=
  PyDict (map (fun e : string * PyValue * Z =>
                 (PyStr (fst (fst e)),
                  annotated (fst (fst e)) (snd (fst e)) (snd e))) entries).

(** The value yielded for one entry. *)
Definition yielded_for (lines : list string) (e : string * PyValue * Z)
  : YAMLValue :=
  mkYAMLValue (PyStr (fst (fst e))) (snd (fst e)) (snd e)
    (nth (Z.to_nat (snd e - 1)) lines EmptyString).

(** A dict has the key [k]. *)
Definition has_key (k : string) (l : list (PyValue * PyValue)) : bool :=
  existsb (fun kv => eq_str k (fst kv)) l.

Definition nonblank (s : string) : bool := negb (String.eqb s EmptyString).

Fixpoint all_chars (p : ascii -> bool) (s : string) : bool :=
  match s with
  | EmptyString => true
  | String c s' => p c && all_chars p s'
  end.

Definition not_hash (c : ascii) : bool := negb (Ascii.eqb Py.hash c).

(** The scanned tokens and the choices agree position by position, as far
    as both go. *)
Definition pairwise_match (toks : list Token) (choices : list TokenClass)
  : bool :=
  forallb (fun tc : Token * TokenClass =>
             isinstance (token_class (fst tc)) (snd tc))
    (combine toks choices).

(** [value.tag] ends in [:str] or [:binary], for a tag alone. *)
Definition str_or_binary_tag (t : string) : bool :=
  endswith t ":str" || endswith t ":binary".

(** Two entries of a three-line document. *)
Definition entries_two : list (string * PyValue * Z) :=
  [ ("user", PyStr "admin", 1); ("password", PyStr "hunter2", 3) ].
Definition lines_three : list string :=
  [ "user: admin"; "port: 80"; "password: hunter2" ].

(** An empty flow mapping as the composer returns it. *)
Definition empty_mapping : Node :=
  mkNode MappingNode map_tag (VMap []) (Some (mkMark 0 3)) (Some (mkMark 0 5))
    (Some true) None.

(** Whether some [#] of [s] directly follows a whitespace character. *)
Fixpoint has_marker (s : string) : bool :=
  match s with
  | String c ((String h _) as s') =>
      (Py.isspace c && Ascii.eqb Py.hash h) || has_marker s'
  | _ => false
  end.

(** A pair whose value carries a string or binary tag and no [__line__]. *)
Definition unstamped (kv : Node * Node) : bool :=
  is_str_or_binary (snd kv)
  && match __line__ (snd kv) with Some _ => false | None => true end.

(** The index at which each item of a list lands in the reconstructed
    lines, [next] being the number of lines written so far: the index of
    its line, or the next free index when that is greater. *)
Fixpoint positions (items : list YAMLValue) (next : nat) : list nat :=
  match items with
  | [] => []
  | item :: items' =>
      let p := Nat.max next (Z.to_nat (line_number item - 1)) in
      p :: positions items' (S p)
  end.

(* ================================================================== *)
(** ** PyYAML at work on whole documents *)

Definition seq_tag : string := "tag:yaml.org,2002:seq".

(** [Composer.compose_node] where the parser meets an error. *)
Definition failing_internals (e : exn) : LoaderInternals unit unit :=
  {| peek_token := fun l => Ok (hd_error (tokens l), l);
     Parser_parse_flow_mapping_key := fun _ l => Ok (tt, l);
     Composer_compose_node := fun _ _ _ => Raise e |}.

(** [Composer.compose_mapping_node]: the key and the value of each pair
    are composed, in this order, by [self.compose_node(node, None)] and
    [self.compose_node(node, item_key)], which is the shim; [children]
    says what PyYAML composes for each of them. *)
Fixpoint compose_pairs (node : Node)
    (children : list (LoaderInternals unit unit * LoaderInternals unit unit))
    (self : YAMLFileParser unit)
  : result (list (Node * Node) * YAMLFileParser unit) :=
  match children with
  | [] => Ok ([], self)
  | (key, value) :: children' =>
      item_key <- @_compose_node_shim unit unit key (Some node) None self ;;
      item_value <- @_compose_node_shim unit unit value (Some node)
                      (Some (fst item_key)) (snd item_key) ;;
      more <- compose_pairs node children' (snd item_value) ;;
      Ok ((fst item_key, fst item_value) :: fst more, snd more)
  end.

Definition mapping_internals (flow : bool)
    (children : list (LoaderInternals unit unit * LoaderInternals unit unit))
  : LoaderInternals unit unit :=
  {| peek_token := fun l => Ok (hd_error (tokens l), l);
     Parser_parse_flow_mapping_key := fun _ l => Ok (tt, l);
     Composer_compose_node := fun _ _ self =>
       let node := mkNode MappingNode map_tag (VMap []) None None (Some flow) None in
       composed <- compose_pairs node children self ;;
       Ok (mkNode MappingNode map_tag (VMap (fst composed)) None None
             (Some flow) None, snd composed) |}.

(** [Composer.compose_sequence_node]: each element is composed by
    [self.compose_node(node, index)]; the index is a position, which the
    shim hands on unread. *)
Fixpoint compose_items (node : Node) (children : list (LoaderInternals unit unit))
    (self : YAMLFileParser unit) : result (list Node * YAMLFileParser unit) :=
  match children with
  | [] => Ok ([], self)
  | child :: children' =>
      item <- @_compose_node_shim unit unit child (Some node) None self ;;
      more <- compose_items node children' (snd item) ;;
      Ok (fst item :: fst more, snd more)
  end.

Definition sequence_internals (flow : bool)
    (children : list (LoaderInternals unit unit)) : LoaderInternals unit unit :=
  {| peek_token := fun l => Ok (hd_error (tokens l), l);
     Parser_parse_flow_mapping_key := fun _ l => Ok (tt, l);
     Composer_compose_node := fun _ _ self =>
       let node := mkNode SequenceNode seq_tag (VSeq []) None None (Some flow) None in
       composed <- compose_items node children self ;;
       Ok (mkNode SequenceNode seq_tag (VSeq (fst composed)) None None
             (Some flow) None, snd composed) |}.

(** The keys of a dict are strings that differ from one another. *)
Fixpoint distinct_keys (l : list (PyValue * PyValue)) : bool :=
  match l with
  | [] => true
  | (PyStr k, _) :: l' =>
      negb (existsb (fun kv => eq_str k (fst kv)) l') && distinct_keys l'
  | _ :: _ => false
  end.

(** What [SafeConstructor] builds from the nodes met in these documents: a
    [str] from a scalar tagged [str], an [int] from a scalar tagged [int]
    whose text is a decimal number as [str] prints it, a [list] from a
    sequence tagged [seq], a [dict] from a mapping tagged [map] whose keys
    are strings that differ; [None] stands for every node outside this
    fragment. *)
Fixpoint construct (node : Node) : option PyValue :=
  match node with
  | mkNode ScalarNode t (VStr s) _ _ _ _ =>
      if String.eqb t str_tag then Some (PyStr s)
      else if String.eqb t int_tag then
        match NilZero.int_of_string s with
        | Some d =>
            if String.eqb (Py.str_of_int (Z.of_int d)) s
            then Some (PyInt (Z.of_int d)) else None
        | None => None
        end
      else None
  | mkNode SequenceNode t (VSeq items) _ _ _ _ =>
      if String.eqb t seq_tag then
        option_map PyList
          ((fix each (l : list Node) : option (list PyValue) :=
              match l with
              | [] => Some []
              | x :: l' =>
                  match construct x, each l' with
                  | Some v, Some vs => Some (v :: vs)
                  | _, _ => None
                  end
              end) items)
      else None
  | mkNode MappingNode t (VMap pairs) _ _ _ _ =>
      if String.eqb t map_tag then
        match (fix each (l : list (Node * Node))
                 : option (list (PyValue * PyValue)) :=
                 match l with
                 | [] => Some []
                 | (k, x) :: l' =>
                     match construct k, construct x, each l' with
                     | Some kv, Some v, Some kvs => Some ((kv, v) :: kvs)
                     | _, _, _ => None
                     end
                 end) pairs with
        | Some kvs => if distinct_keys kvs then Some (PyDict kvs) else None
        | None => None
        end
      else None
  | _ => None
  end.

(** A parser as [__init__] leaves it, the scanner having read as far as
    line [cursor] when the first node is composed; the marks and the queue
    of tokens, which nothing reads while the flag is clear, are left
    empty. *)
Definition scanned_to (doc : string) (cursor : Z) : YAMLFileParser unit :=
  mkYAMLFileParser doc (mkLoader cursor [] [] tt) false.

(** [get_single_data()] on the one document [content start]:
    [compose_document] composes the root by [self.compose_node(None, None)],
    which is the shim, and [construct_document] builds the value; an
    exception of the shim leaves it as it is. *)
Definition composing_loader (root : LoaderInternals unit unit)
    (start : YAMLFileParser unit) : SafeLoader :=
  {| get_single_data := fun text =>
       if String.eqb text (content start) then
         composed <- @_compose_node_shim unit unit root None None start ;;
         match construct (fst composed) with
         | Some data => Ok data
         | None => Raise YAMLError
         end
       else Raise YAMLError |}.

(** A scalar tagged as a mapping, then a flow sequence that is never
    closed: the parser fails at the end of the stream, after the first pair
    has been composed. *)
Definition doc_tagged_scalar : string :=
  "a: !!map foo" ++ nl ++ "b: [" ++ nl.
Definition composer_tagged_scalar : LoaderInternals unit unit :=
  mapping_internals false
    [ (fixed_internals (scalar str_tag "a" None),
       fixed_internals (scalar map_tag "foo" None));
      (fixed_internals (scalar str_tag "b" None),
       failing_internals YAMLError) ].

(** The same document without the tag. *)
Definition doc_unclosed : string := "a: foo" ++ nl ++ "b: [" ++ nl.
Definition composer_unclosed : LoaderInternals unit unit :=
  mapping_internals false
    [ (fixed_internals (scalar str_tag "a" None),
       fixed_internals (scalar str_tag "foo" None));
      (fixed_internals (scalar str_tag "b" None),
       failing_internals YAMLError) ].

(** A flow sequence of one single-pair mapping, then two blank lines. The
    opening bracket may start a simple key, so the scanner reads on until
    the line changes: it is on line 3, counted from 0, at the end of the
    stream, before the first node is composed. *)
Definition doc_flow_sequence : string := "[a: b]" ++ nl ++ nl ++ nl.
Definition composer_flow_sequence : LoaderInternals unit unit :=
  sequence_internals true
    [ mapping_internals true
        [ (fixed_internals (scalar str_tag "a" None),
           fixed_internals (scalar str_tag "b" None)) ] ].

(* ================================================================== *)
(** ** Notions used for the rendered line *)

(** [inner] under the keys of [path], the outermost first: one mapping of
    one pair for each key. *)
Definition nest (path : list string) (inner : PyValue) : PyValue :=
  fold_right (fun p v => PyDict [ (PyStr p, v) ]) inner path.

(** Reading an escaped text back: a backslash directly before a double
    quote is dropped. *)
Fixpoint unescape (s : string) : string :=
  match s with
  | EmptyString => EmptyString
  | String c s' =>
      match s' with
      | String d s'' =>
          if Ascii.eqb c Py.backslash && Ascii.eqb d Py.dquote
          then String d (unescape s'')
          else String c (unescape s')
      | EmptyString => String c EmptyString
      end
  end.

(** The number of double quotes in a text. *)
Fixpoint count_quotes (s : string) : nat :=
  match s with
  | EmptyString => 0%nat
  | String c s' =>
      ((if Ascii.eqb c Py.dquote then 1 else 0) + count_quotes s')%nat
  end.

(** A mapping under two others, its value holding double quotes, with a
    comment. *)
Definition doc_deep : string :=
  "db:" ++ nl ++ "  auth:" ++ nl
    ++ "    password: say " ++ quote ++ "hi" ++ quote ++ " # note" ++ nl.
Definition data_deep : PyValue :=
  nest ["db"; "auth"]
    (annotated "password" (PyStr ("say " ++ quote ++ "hi" ++ quote)) 3).

(** The value of a character in the base64 alphabet of RFC 4648: the
    capital letters from 0, the small letters from 26, the digits from 52,
    then [+] and [/]. *)
Definition b64_value (c : ascii) : option N :=
  let n := N_of_ascii c in
  (if (65 <=? n) && (n <=? 90) then Some (n - 65)
   else if (97 <=? n) && (n <=? 122) then Some (n - 71)
   else if (48 <=? n) && (n <=? 57) then Some (n + 4)
   else if n =? 43 then Some 62
   else if n =? 47 then Some 63
   else None)%N.

Definition is_pad (c : ascii) : bool := (N_of_ascii c =? 61)%N.

(** Reading base64 text back as RFC 4648 has it: four characters of the
    alphabet give three bytes; the last four may end in one or two [=] and
    then give two bytes or one, the bits left over being zero. *)
Fixpoint b64decode (s : string) : option (list byte) :=
  match s with
  | EmptyString => Some []
  | String c1 (String c2 (String c3 (String c4 rest))) =>
      match b64_value c1, b64_value c2 with
      | Some v1, Some v2 =>
          if is_pad c3 then
            if is_pad c4 && String.eqb rest EmptyString && (v2 mod 16 =? 0)%N
            then option_map (fun x => [x]) (Byte.of_N (v1 * 4 + v2 / 16))
            else None
          else
            match b64_value c3 with
            | Some v3 =>
                if is_pad c4 then
                  if String.eqb rest EmptyString && (v3 mod 4 =? 0)%N then
                    match Byte.of_N (v1 * 4 + v2 / 16),
                          Byte.of_N (v2 mod 16 * 16 + v3 / 4) with
                    | Some x, Some y => Some [x; y]
                    | _, _ => None
                    end
                  else None
                else
                  match b64_value c4 with
                  | Some v4 =>
                      match Byte.of_N (v1 * 4 + v2 / 16),
                            Byte.of_N (v2 mod 16 * 16 + v3 / 4),
                            Byte.of_N (v3 mod 4 * 64 + v4),
                            b64decode rest with
                      | Some x, Some y, Some z, Some more =>
                          Some (x :: y :: z :: more)
                      | _, _, _, _ => None
                      end
                  | None => None
                  end
            | None => None
            end
      | _, _ => None
      end
  | _ => None
  end.

(* ================================================================== *)
(** * Properties *)

(** ** The traversal loop *)

Lemma size_pos (v : PyValue) : (1 <= size v)%nat.
Proof. destruct v; simpl; lia. Qed.

Lemma queue_size_app (q1 q2 : list PyValue) :
  queue_size (q1 ++ q2) = (queue_size q1 + queue_size q2)%nat.
Proof.
  unfold queue_size. now rewrite map_app, list_sum_app.
Qed.

Lemma queue_size_values (l : list (PyValue * PyValue)) :
  (queue_size (map snd l)
   <= list_sum (map (fun kv : PyValue * PyValue =>
                       let (k, x) := kv in (size k + size x)%nat) l))%nat.
Proof.
  unfold queue_size.
  induction l as [|[k x] l IH]; simpl; lia.
Qed.

(** The queue grows only by the values of a dict or the elements of a
    list, tuple or set that carries no marker. *)
Lemma visit_extend (lines : list string) (item : PyValue) (items : list PyValue) :
  visit lines item = Extend items ->
  py_in "__line__" item = Ok false /\ isinstance_str item = false
  /\ extend_items item = Ok items.
Proof.
  unfold visit.
  destruct (truthy item); simpl; [|discriminate].
  destruct (py_in "__line__" item) as [[|]|e].
  - destruct (make_value lines item); discriminate.
  - destruct (isinstance_str item); [discriminate|].
    destruct (extend_items item) as [l|e]; [|destruct e; discriminate].
    intros H; injection H as <-. auto.
  - destruct e; discriminate.
Qed.

Lemma extend_smaller (lines : list string) (item : PyValue) (items : list PyValue) :
  visit lines item = Extend items -> (queue_size items < size item)%nat.
Proof.
  intros H. apply visit_extend in H as (Hin & Hstr & Hext).
  destruct item; simpl in *; try discriminate;
    injection Hext as <-; try (unfold queue_size; lia).
  pose proof (queue_size_values l). lia.
Qed.

Lemma search_loop_rounds (lines : list string) :
  forall (n m : nat) (q : list PyValue),
    (queue_size q <= n)%nat -> (queue_size q <= m)%nat ->
    search_loop n lines q = search_loop m lines q.
Proof.
  induction n as [|n IH]; intros m q Hn Hm.
  - destruct q as [|item rest].
    + now destruct m.
    + unfold queue_size in Hn. simpl in Hn. pose proof (size_pos item). lia.
  - destruct m as [|m].
    + destruct q as [|item rest]; [reflexivity|].
      unfold queue_size in Hm. simpl in Hm. pose proof (size_pos item). lia.
    + destruct q as [|item rest]; [reflexivity|].
      assert (Hq : queue_size (item :: rest) = (size item + queue_size rest)%nat)
        by reflexivity.
      pose proof (size_pos item) as Hpos.
      simpl. destruct (visit lines item) as [|items|v|e] eqn:Hv.
      * apply IH; lia.
      * apply extend_smaller in Hv.
        apply IH; rewrite queue_size_app; lia.
      * rewrite (IH m rest) by lia. reflexivity.
      * reflexivity.
Qed.

(** The bound on the rounds is never reached: [flatten] satisfies the
    equations of the [while] loop itself. *)
Lemma flatten_nil (lines : list string) : flatten lines [] = Ok [].
Proof. reflexivity. Qed.

Lemma flatten_cons (lines : list string) (item : PyValue) (rest : list PyValue) :
  flatten lines (item :: rest) =
  match visit lines item with
  | Skip => flatten lines rest
  | Extend items => flatten lines (rest ++ items)
  | Yield v => vs <- flatten lines rest ;; Ok (v :: vs)
  | Abort e => Raise e
  end.
Proof.
  unfold flatten.
  assert (Hq : queue_size (item :: rest) = (size item + queue_size rest)%nat)
    by reflexivity.
  pose proof (size_pos item) as Hpos.
  destruct (queue_size (item :: rest)) as [|n] eqn:Hn; [lia|].
  simpl. destruct (visit lines item) as [|items|v|e] eqn:Hv.
  - apply search_loop_rounds; lia.
  - apply extend_smaller in Hv.
    apply search_loop_rounds; rewrite ?queue_size_app; lia.
  - rewrite (search_loop_rounds lines n (queue_size rest) rest) by lia.
    reflexivity.
  - reflexivity.
Qed.

Lemma visit_yield (lines : list string) (item : PyValue) (v : YAMLValue) :
  visit lines item = Yield v ->
  py_in "__line__" item = Ok true /\ make_value lines item = Ok v.
Proof.
  unfold visit.
  destruct (truthy item); simpl; [|discriminate].
  destruct (py_in "__line__" item) as [[|]|e].
  - destruct (make_value lines item); [|discriminate].
    intros H; injection H as <-. auto.
  - destruct (isinstance_str item); [discriminate|].
    destruct (extend_items item) as [l|e]; [|destruct e]; discriminate.
  - destruct e; discriminate.
Qed.

Lemma getitem_ok {A : Type} (l : list A) (i : Z) (a : A) :
  Py.getitem l i = Ok a ->
  - Z.of_nat (length l) <= i < Z.of_nat (length l).
Proof.
  unfold Py.getitem.
  destruct (i <? 0) eqn:Hi;
    destruct (_ || _) eqn:Hb; try discriminate;
    apply orb_false_iff in Hb as [H1 H2]; intros _; lia.
Qed.

Lemma make_value_lookup (lines : list string) (item : PyValue) (v : YAMLValue) :
  make_value lines item = Ok v ->
  Py.getitem lines (line_number v - 1) = Ok (line v).
Proof.
  unfold make_value.
  destruct (py_getitem item "__original_key__") as [k|]; [simpl|discriminate].
  destruct (py_getitem item "__value__") as [x|]; [simpl|discriminate].
  destruct (py_getitem item "__line__") as [ln|]; [simpl|discriminate].
  destruct (py_int ln) as [n|]; [simpl|discriminate].
  destruct (Py.getitem lines (n - 1)) as [l|] eqn:Hl; [simpl|discriminate].
  intros H; injection H as <-. exact Hl.
Qed.

(** Every value the loop yields was built by [make_value] from an item
    that carries the marker. *)
Lemma search_loop_yields (lines : list string) :
  forall (n : nat) (q : list PyValue) (items : list YAMLValue),
    search_loop n lines q = Ok items ->
    forall v, In v items ->
      Py.getitem lines (line_number v - 1) = Ok (line v).
Proof.
  induction n as [|n IH]; intros q items Hrun v Hv.
  - injection Hrun as <-. contradiction.
  - destruct q as [|item rest]; simpl in Hrun.
    + injection Hrun as <-. contradiction.
    + destruct (visit lines item) as [|ext|y|e] eqn:Hvisit.
      * eauto.
      * eauto.
      * destruct (search_loop n lines rest) as [vs|] eqn:Hrest;
          [simpl in Hrun|discriminate].
        injection Hrun as <-. destruct Hv as [<-|Hv].
        -- apply visit_yield in Hvisit as [_ Hmk].
           eapply make_value_lookup; eauto.
        -- eauto.
      * discriminate.
Qed.

(** ** Sorting by line number *)

Lemma insert_by_line_perm (x : YAMLValue) (l : list YAMLValue) :
  Permutation (x :: l) (insert_by_line x l).
Proof.
  induction l as [|y l IH]; simpl.
  - apply Permutation_refl.
  - destruct (line_number x <=? line_number y).
    + apply Permutation_refl.
    + eapply Permutation_trans; [apply perm_swap|].
      now apply perm_skip.
Qed.

Lemma sorted_perm (items : list YAMLValue) : Permutation items (sorted items).
Proof.
  induction items as [|x items IH]; simpl.
  - apply perm_nil.
  - eapply Permutation_trans; [|apply insert_by_line_perm].
    now apply perm_skip.
Qed.

Lemma insert_by_line_sorted (x : YAMLValue) (l : list YAMLValue) :
  StronglySorted line_le l -> StronglySorted line_le (insert_by_line x l).
Proof.
  induction l as [|y l IH]; intros Hs; simpl.
  - constructor; constructor.
  - inversion Hs as [|? ? Hl Hy]; subst.
    destruct (line_number x <=? line_number y) eqn:Hxy.
    + apply Z.leb_le in Hxy. constructor; [exact Hs|].
      constructor; [exact Hxy|].
      eapply Forall_impl; [|exact Hy].
      unfold line_le. intros; lia.
    + apply Z.leb_gt in Hxy. constructor; [now apply IH|].
      eapply Permutation_Forall; [apply insert_by_line_perm|].
      constructor; [unfold line_le; lia|exact Hy].
Qed.

Lemma sorted_sorted (items : list YAMLValue) : StronglySorted line_le (sorted items).
Proof.
  induction items as [|x items IH]; simpl.
  - constructor.
  - now apply insert_by_line_sorted.
Qed.

Lemma sorted_strict (l : list YAMLValue) :
  StronglySorted line_le l -> NoDup (map line_number l) ->
  StronglySorted line_lt l.
Proof.
  induction 1 as [|a l Hs IH Ha]; intros Hnd; [constructor|].
  simpl in Hnd. inversion Hnd as [|? ? Hnotin Hnd']; subst.
  constructor; [now apply IH|].
  rewrite Forall_forall in *. intros b Hb.
  specialize (Ha b Hb). unfold line_le, line_lt in *.
  assert (line_number a <> line_number b).
  { intros Heq. apply Hnotin. rewrite Heq. now apply in_map. }
  lia.
Qed.

Lemma max_line_insert (x : YAMLValue) (l : list YAMLValue) :
  max_line (insert_by_line x l) = Z.max (line_number x) (max_line l).
Proof.
  induction l as [|y l IH]; simpl; [reflexivity|].
  destruct (line_number x <=? line_number y); [reflexivity|].
  change (max_line (y :: insert_by_line x l))
    with (Z.max (line_number y) (max_line (insert_by_line x l))).
  change (max_line (y :: l)) with (Z.max (line_number y) (max_line l)).
  rewrite IH. lia.
Qed.

Lemma max_line_nonneg (items : list YAMLValue) : 0 <= max_line items.
Proof.
  unfold max_line.
  induction (map line_number items) as [|z l IH]; cbn [fold_right]; lia.
Qed.

Lemma max_line_sorted (items : list YAMLValue) :
  max_line (sorted items) = max_line items.
Proof.
  induction items as [|x items IH]; simpl; [reflexivity|].
  rewrite max_line_insert, IH. reflexivity.
Qed.

(** ** The reconstruction loop *)

Lemma pad_lines_length (lines : list string) (n : Z) :
  Z.of_nat (length lines) <= n ->
  Z.of_nat (length (pad_lines lines n)) = n.
Proof.
  intros H. unfold pad_lines. rewrite length_app, repeat_length. lia.
Qed.

Lemma pad_lines_old (lines : list string) (n : Z) (i : nat) :
  (i < length lines)%nat ->
  nth_error (pad_lines lines n) i = nth_error lines i.
Proof.
  intros H. unfold pad_lines. now rewrite nth_error_app1.
Qed.

Lemma pad_lines_new (lines : list string) (n : Z) (i : nat) :
  (length lines <= i < length (pad_lines lines n))%nat ->
  nth_error (pad_lines lines n) i = Some EmptyString.
Proof.
  unfold pad_lines. rewrite length_app, repeat_length. intros H.
  rewrite nth_error_app2 by lia.
  apply nth_error_repeat. lia.
Qed.

Lemma render_text `{Formatter} (item : YAMLValue) :
  is_text (value item) = true -> render item = Ok (rendered item).
Proof.
  unfold render, rendered, escape.
  destruct (value item); simpl; try discriminate; reflexivity.
Qed.

Lemma reconstruct_increasing `{Formatter} :
  forall (items : list YAMLValue) (acc : list string),
    StronglySorted line_lt items ->
    Forall (fun i => Z.of_nat (length acc) < line_number i) items ->
    Forall (fun i => is_text (value i) = true) items ->
    exists out,
      reconstruct items acc = Ok out
      /\ Z.of_nat (length out) = Z.max (Z.of_nat (length acc)) (max_line items)
      /\ (forall n, (n < length acc)%nat -> nth_error out n = nth_error acc n)
      /\ (forall i, In i items ->
            nth_error out (Z.to_nat (line_number i - 1)) = Some (rendered i))
      /\ (forall n, (length acc <= n < length out)%nat ->
            (forall i, In i items -> line_number i <> Z.of_nat n + 1) ->
            nth_error out n = Some EmptyString).
Proof.
  induction items as [|item items IH]; intros acc Hs Hlen Htext.
  - exists acc. simpl. repeat split; try lia; try contradiction.
    unfold max_line; simpl; lia.
  - inversion Hs as [|? ? Hs' Hlt]; subst.
    inversion Hlen as [|? ? Hitem Hlen']; subst.
    inversion Htext as [|? ? Hv Htext']; subst.
    simpl. rewrite (render_text item Hv). simpl.
    set (padded := pad_lines acc (line_number item - 1)).
    assert (Hpad : Z.of_nat (length padded) = line_number item - 1)
      by (apply pad_lines_length; lia).
    set (acc' := (padded ++ [rendered item])%list).
    assert (Hacc' : Z.of_nat (length acc') = line_number item).
    { unfold acc'. rewrite length_app. simpl. lia. }
    destruct (IH acc' Hs') as (out & Hrun & Hout & Hold & Hat & Hgap);
      [|exact Htext'|].
    { rewrite Forall_forall in *. intros i Hi.
      specialize (Hlt i Hi). unfold line_lt in Hlt. lia. }
    exists out. split; [exact Hrun|].
    assert (Hmax : max_line (item :: items)
                   = Z.max (line_number item) (max_line items)) by reflexivity.
    split; [lia|]. split; [|split].
    + intros n Hn. rewrite Hold by lia.
      unfold acc'. rewrite nth_error_app1 by lia.
      now apply pad_lines_old.
    + intros i [<-|Hi]; [|now apply Hat].
      rewrite Hold by lia. unfold acc'.
      rewrite nth_error_app2 by lia.
      replace (Z.to_nat (line_number item - 1) - length padded)%nat
        with 0%nat by lia.
      reflexivity.
    + intros n Hn Hfree.
      destruct (Nat.lt_ge_cases n (length acc')) as [Hin|Hout'].
      * assert (line_number item <> Z.of_nat n + 1) by (apply Hfree; now left).
        rewrite Hold by lia. unfold acc'.
        rewrite nth_error_app1 by lia.
        apply pad_lines_new. fold padded. lia.
      * apply Hgap; [lia|]. intros i Hi. apply Hfree. now right.
Qed.

(** ** [YAMLTransformer.parse_file] *)

Lemma parse_file_ok `{SafeLoader} `{Formatter} (file : NamedIO)
    (items : list YAMLValue) :
  YAMLFileParser_iter (read file) = Ok items ->
  parse_file file = reconstruct (sorted items) [].
Proof.
  intros Hiter. unfold parse_file. now rewrite Hiter.
Qed.

(** C1, as the code has it. When the values the traversal yields lie on
    pairwise different lines (numbered from 1) and are strings or bytes,
    [parse_file] returns a list with as many entries as the greatest of
    these line numbers, which can be fewer than the lines of the document;
    the entry at index [L - 1] is the line rendered for the value of line
    [L]: its key, a colon and a space, its escaped (for bytes, base64) text
    between double quotes, and the comment; every other entry is the
    empty string. *)
Theorem parse_file_places_items `{SafeLoader} `{Formatter} (file : NamedIO)
    (items : list YAMLValue) :
  YAMLFileParser_iter (read file) = Ok items ->
  NoDup (map line_number items) ->
  Forall (fun i => 1 <= line_number i) items ->
  Forall (fun i => is_text (value i) = true) items ->
  exists out,
    parse_file file = Ok out
    /\ Z.of_nat (length out) = max_line items
    /\ (forall i, In i items ->
          nth_error out (Z.to_nat (line_number i - 1)) = Some (rendered i))
    /\ (forall n, (n < length out)%nat ->
          (forall i, In i items -> line_number i <> Z.of_nat n + 1) ->
          nth_error out n = Some EmptyString).
Proof.
  intros Hiter Hnd Hpos Htext.
  rewrite (parse_file_ok file items Hiter).
  pose proof (sorted_perm items) as Hperm.
  destruct (reconstruct_increasing (sorted items) [])
    as (out & Hrun & Hlen & _ & Hat & Hgap).
  - apply sorted_strict; [apply sorted_sorted|].
    eapply Permutation_NoDup; [|exact Hnd]. now apply Permutation_map.
  - eapply Permutation_Forall; [exact Hperm|].
    eapply Forall_impl; [|exact Hpos]. simpl. intros; lia.
  - eapply Permutation_Forall; [exact Hperm|exact Htext].
  - exists out. split; [exact Hrun|].
    rewrite max_line_sorted in Hlen. simpl in Hlen.
    pose proof (max_line_nonneg items).
    split; [lia|]. split.
    + intros i Hi. apply Hat. eapply Permutation_in; eauto.
    + intros n Hn Hfree. apply Hgap; [simpl; lia|].
      intros i Hi. apply Hfree.
      eapply Permutation_in; [apply Permutation_sym; exact Hperm|exact Hi].
Qed.

Lemma parse_file_places_items_witness :
  @YAMLFileParser_iter (loads doc_nested (Ok data_nested)) doc_nested
    = Ok [ mkYAMLValue (PyStr "b") (PyStr "two") 3 "b: two # c";
           mkYAMLValue (PyStr "x") (PyStr "three") 2 "  x: three" ]
  /\ exists out,
       @parse_file (loads doc_nested (Ok data_nested)) strings_only
         (mkNamedIO "nested.yaml" doc_nested) = Ok out
       /\ Z.of_nat (length out) = 3
       /\ nth_error out 2 = Some ("b: " ++ quote ++ "two" ++ quote ++ " # c")
       /\ nth_error out 1 = Some ("x: " ++ quote ++ "three" ++ quote)
       /\ nth_error out 0 = Some EmptyString.
Proof.
  split; [reflexivity|].
  destruct (@parse_file_places_items (loads doc_nested (Ok data_nested))
              strings_only (mkNamedIO "nested.yaml" doc_nested)
              [ mkYAMLValue (PyStr "b") (PyStr "two") 3 "b: two # c";
                mkYAMLValue (PyStr "x") (PyStr "three") 2 "  x: three" ])
    as (out & Hrun & Hlen & Hat & Hgap).
  - reflexivity.
  - simpl. repeat constructor; simpl; intuition discriminate.
  - repeat constructor; simpl; lia.
  - repeat constructor.
  - exists out. split; [exact Hrun|]. split; [exact Hlen|].
    split; [apply (Hat (mkYAMLValue (PyStr "b") (PyStr "two") 3 "b: two # c"));
            simpl; auto|].
    split; [apply (Hat (mkYAMLValue (PyStr "x") (PyStr "three") 2 "  x: three"));
            simpl; auto|].
    apply Hgap.
    + change (max_line _) with 3 in Hlen. lia.
    + simpl. intros i [<-|[<-|[]]]; simpl; lia.
Defined.

(** C1, as stated, fails: a two-line document whose only string value is
    on line 1 gives one entry, and of two values on line 1 the second is
    put at index 1. *)
Lemma parse_file_not_one_entry_per_line :
  (exists out,
     @parse_file (loads doc_short (Ok data_short)) strings_only
       (mkNamedIO "short.yaml" doc_short) = Ok out
     /\ length (Py.splitlines doc_short) = 2%nat
     /\ (length out < length (Py.splitlines doc_short))%nat)
  /\ @parse_file (loads doc_flow (Ok data_flow)) strings_only
       (mkNamedIO "flow.yaml" doc_flow)
     = Ok [ "a: " ++ quote ++ "x" ++ quote; "b: " ++ quote ++ "y" ++ quote ].
Proof.
  split; [|reflexivity].
  eexists. split; [reflexivity|]. split; [reflexivity|]. simpl. lia.
Qed.

(** The [except] clause: of the exceptions that leave the loader,
    [yaml.YAMLError] alone is replaced by [ParsingError]; every other one
    leaves [parse_file] as it is. *)
Lemma parse_file_loader_raises `{SafeLoader} `{Formatter} (file : NamedIO)
    (e : exn) :
  get_single_data (read file) = Raise e ->
  parse_file file = Raise (match e with YAMLError => ParsingError | _ => e end).
Proof.
  intros Herr. unfold parse_file, YAMLFileParser_iter. rewrite Herr.
  destruct e; reflexivity.
Qed.

(** C5. The items the reconstruction loop consumes are the yielded values
    put in ascending order of [line_number] by [sorted]: a permutation of
    what the traversal yields, whatever order it yields them in. *)
Theorem parse_file_sorts_items `{SafeLoader} `{Formatter} (file : NamedIO)
    (items : list YAMLValue) :
  YAMLFileParser_iter (read file) = Ok items ->
  parse_file file = reconstruct (sorted items) []
  /\ StronglySorted line_le (sorted items)
  /\ Permutation items (sorted items).
Proof.
  intros Hiter. split; [now apply parse_file_ok|].
  split; [apply sorted_sorted|apply sorted_perm].
Qed.

Lemma parse_file_sorts_items_witness :
  @YAMLFileParser_iter (loads doc_nested (Ok data_nested)) doc_nested
    = Ok [ mkYAMLValue (PyStr "b") (PyStr "two") 3 "b: two # c";
           mkYAMLValue (PyStr "x") (PyStr "three") 2 "  x: three" ]
  /\ @parse_file (loads doc_nested (Ok data_nested)) strings_only
       (mkNamedIO "nested.yaml" doc_nested)
     = @reconstruct strings_only
         (sorted [ mkYAMLValue (PyStr "b") (PyStr "two") 3 "b: two # c";
                   mkYAMLValue (PyStr "x") (PyStr "three") 2 "  x: three" ]) []
  /\ StronglySorted line_le
       (sorted [ mkYAMLValue (PyStr "b") (PyStr "two") 3 "b: two # c";
                 mkYAMLValue (PyStr "x") (PyStr "three") 2 "  x: three" ])
  /\ Permutation
       [ mkYAMLValue (PyStr "b") (PyStr "two") 3 "b: two # c";
         mkYAMLValue (PyStr "x") (PyStr "three") 2 "  x: three" ]
       (sorted [ mkYAMLValue (PyStr "b") (PyStr "two") 3 "b: two # c";
                 mkYAMLValue (PyStr "x") (PyStr "three") 2 "  x: three" ]).
Proof.
  split; [reflexivity|].
  apply (@parse_file_sorts_items (loads doc_nested (Ok data_nested))
           strings_only (mkNamedIO "nested.yaml" doc_nested)).
  reflexivity.
Defined.

(** The traversal alone does not give line order: on [doc_nested] it yields
    line 3 before line 2, and the sort puts them back. *)
Lemma traversal_order_is_not_line_order :
  exists a b,
    @YAMLFileParser_iter (loads doc_nested (Ok data_nested)) doc_nested
      = Ok [a; b]
    /\ line_number b < line_number a
    /\ sorted [a; b] = [b; a].
Proof.
  do 2 eexists. split; [reflexivity|]. split; [simpl; lia|reflexivity].
Qed.

(** ** Strings *)

Lemma append_length (a b : string) :
  String.length (a ++ b) = (String.length a + String.length b)%nat.
Proof. induction a as [|c a IH]; simpl; [reflexivity|now rewrite IH]. Qed.

Lemma append_assoc (a b c : string) : (a ++ b) ++ c = a ++ (b ++ c).
Proof. induction a as [|x a IH]; simpl; [reflexivity|now rewrite IH]. Qed.

Lemma substring_prefix (a b : string) :
  substring 0 (String.length (a ++ b) - String.length b) (a ++ b) = a.
Proof.
  rewrite append_length.
  replace (String.length a + String.length b - String.length b)%nat
    with (String.length a) by lia.
  induction a as [|c a IH]; simpl.
  - now destruct b.
  - now rewrite IH.
Qed.

Lemma take_drop_while (p : ascii -> bool) (s : string) :
  take_while p s ++ drop_while p s = s.
Proof.
  induction s as [|c s IH]; simpl; [reflexivity|].
  destruct (p c); simpl; [now rewrite IH|reflexivity].
Qed.

Lemma drop_while_length (p : ascii -> bool) (s : string) :
  (String.length (drop_while p s) <= String.length s)%nat.
Proof.
  induction s as [|c s IH]; simpl; [lia|].
  destruct (p c); simpl; lia.
Qed.

(** ** The comment pattern *)

Lemma star_loop_class_end (p : ascii -> bool) :
  forall (n : nat) (s : string),
    (String.length s <= n)%nat ->
    Re.star_loop (Re.matches (Re.Class p)) n s Some = Some (drop_while p s).
Proof.
  induction n as [|n IH]; intros s Hn.
  - destruct s; [reflexivity|simpl in Hn; lia].
  - destruct s as [|c s]; [reflexivity|].
    cbn [Re.star_loop Re.matches drop_while].
    destruct (p c) eqn:Hc; [|reflexivity].
    assert (Hlt : (String.length s <? String.length (String c s))%nat = true)
      by (apply Nat.ltb_lt; simpl; lia).
    rewrite Hlt, IH by (simpl in Hn; lia). reflexivity.
Qed.

(** When the rest of the pattern cannot start with a character of the
    class, giving characters back never helps: the loop takes the whole
    run. *)
Lemma star_loop_class_run (p : ascii -> bool) (k : string -> option string) :
  (forall c s, p c = true -> k (String c s) = None) ->
  forall (n : nat) (s : string),
    (String.length s <= n)%nat ->
    Re.star_loop (Re.matches (Re.Class p)) n s k = k (drop_while p s).
Proof.
  intros Hk. induction n as [|n IH]; intros s Hn.
  - destruct s; [reflexivity|simpl in Hn; lia].
  - destruct s as [|c s]; [reflexivity|].
    cbn [Re.star_loop Re.matches drop_while].
    destruct (p c) eqn:Hc; [|reflexivity].
    assert (Hlt : (String.length s <? String.length (String c s))%nat = true)
      by (apply Nat.ltb_lt; simpl; lia).
    rewrite Hlt, IH by (simpl in Hn; lia).
    destruct (k (drop_while p s)); [reflexivity|].
    now rewrite Hk.
Qed.

Lemma matches_class (p : ascii -> bool) (c : ascii) (s : string)
    (k : string -> option string) :
  Re.matches (Re.Class p) (String c s) k = if p c then k s else None.
Proof. reflexivity. Qed.

Lemma matches_seq (r1 r2 : Re.regex) (s : string) (k : string -> option string) :
  Re.matches (Re.Seq r1 r2) s k
  = Re.matches r1 s (fun s' => Re.matches r2 s' k).
Proof. reflexivity. Qed.

Lemma matches_star (r : Re.regex) (s : string) (k : string -> option string) :
  Re.matches (Re.Star r) s k
  = Re.star_loop (Re.matches r) (String.length s) s k.
Proof. reflexivity. Qed.

Lemma matches_plus (r : Re.regex) (s : string) (k : string -> option string) :
  Re.matches (Re.Plus r) s k
  = Re.matches r s
      (fun s' => Re.star_loop (Re.matches r) (String.length s') s' k).
Proof. reflexivity. Qed.

Lemma matches_group (r : Re.regex) (s : string) (k : string -> option string) :
  Re.matches (Re.Group r) s k = Re.matches r s k.
Proof. reflexivity. Qed.

Lemma hash_not_space (c : ascii) :
  Ascii.eqb Py.hash c = true -> Py.isspace c = false.
Proof.
  intros H. apply Ascii.eqb_eq in H. subst c. reflexivity.
Qed.

(** The pattern at the start of [s]: it matches exactly when a comment
    starts there, and then consumes exactly its text. *)
Lemma matches_comment_here (s : string) :
  match comment_here s with
  | Some c => exists rest, s = c ++ rest
                           /\ Re.matches _yaml_comment_regex s Some = Some rest
  | None => Re.matches _yaml_comment_regex s Some = None
  end.
Proof.
  destruct s as [|c s]; [reflexivity|].
  unfold comment_here.
  destruct (Py.isspace c) eqn:Hc; [|simpl; now rewrite Hc].
  assert (Hrun :
    Re.matches _yaml_comment_regex (String c s) Some
    = match drop_while Py.isspace (String c s) with
      | String h t =>
          if Ascii.eqb Py.hash h then Some (drop_while comment_char t) else None
      | EmptyString => None
      end).
  { unfold _yaml_comment_regex.
    rewrite matches_group, matches_seq, matches_plus, matches_class, Hc.
    rewrite star_loop_class_run.
    - cbn [drop_while]. rewrite Hc.
      destruct (drop_while Py.isspace s) as [|h t]; [reflexivity|].
      rewrite matches_seq, matches_class.
      destruct (Ascii.eqb Py.hash h); [|reflexivity].
      rewrite matches_star. now rewrite star_loop_class_end.
    - intros c' s' Hc'. rewrite matches_seq, matches_class.
      destruct (Ascii.eqb Py.hash c') eqn:Hh; [|reflexivity].
      apply hash_not_space in Hh. congruence.
    - lia. }
  rewrite Hrun.
  pose proof (take_drop_while Py.isspace (String c s)) as Hsplit.
  destruct (drop_while Py.isspace (String c s)) as [|h t]; [reflexivity|].
  destruct (Ascii.eqb Py.hash h) eqn:Hh; [|reflexivity].
  apply Ascii.eqb_eq in Hh. subst h.
  exists (drop_while comment_char t). split; [|reflexivity].
  rewrite append_assoc. cbn [append].
  rewrite take_drop_while. now rewrite Hsplit.
Qed.

Lemma search_unfold (r : Re.regex) (s : string) :
  Re.search r s =
  match Re.matches r s Some with
  | Some rest => Some (substring 0 (String.length s - String.length rest) s)
  | None =>
      match s with
      | EmptyString => None
      | String _ s' => Re.search r s'
      end
  end.
Proof. destruct s; reflexivity. Qed.

Lemma first_comment_unfold (s : string) :
  first_comment s =
  match comment_here s with
  | Some c => Some c
  | None =>
      match s with
      | EmptyString => None
      | String _ s' => first_comment s'
      end
  end.
Proof. destruct s; reflexivity. Qed.

Lemma search_comment (s : string) :
  Re.search _yaml_comment_regex s = first_comment s.
Proof.
  induction s as [|c s IH];
    rewrite search_unfold, first_comment_unfold;
    pose proof (matches_comment_here EmptyString) as H0;
    [ destruct (comment_here EmptyString) as [t|]
    | pose proof (matches_comment_here (String c s)) as H1;
      destruct (comment_here (String c s)) as [t|] ].
  - destruct H0 as (rest & Hs & Hm). rewrite Hm.
    rewrite Hs at 1 2. now rewrite substring_prefix.
  - now rewrite H0.
  - destruct H1 as (rest & Hs & Hm). rewrite Hm.
    rewrite Hs at 1 2. now rewrite substring_prefix.
  - now rewrite H1.
Qed.

Lemma drop_while_head (p : ascii -> bool) (s : string) :
  drop_while p s = EmptyString
  \/ exists h t, drop_while p s = String h t /\ p h = false.
Proof.
  induction s as [|c s IH]; simpl; [now left|].
  destruct (p c) eqn:Hc; [exact IH|]. right. eauto.
Qed.

(** A comment found in a line stops at the end of the line or just before
    a whitespace character that is not a space. *)
Lemma first_comment_extent (s c : string) :
  first_comment s = Some c ->
  exists pre post,
    s = pre ++ c ++ post
    /\ (post = EmptyString
        \/ exists h t, post = String h t /\ comment_char h = false).
Proof.
  induction s as [|x s IH]; rewrite first_comment_unfold.
  - discriminate.
  - unfold comment_here.
    destruct (Py.isspace x) eqn:Hx.
    + destruct (drop_while Py.isspace (String x s)) as [|h t] eqn:Hd.
      * intros H. destruct (IH H) as (pre & post & -> & Hpost).
        exists (String x pre), post. auto.
      * destruct (Ascii.eqb Py.hash h) eqn:Hh.
        -- intros H. injection H as <-.
           apply Ascii.eqb_eq in Hh. subst h.
           exists EmptyString, (drop_while comment_char t).
           split; [|apply drop_while_head].
           pose proof (take_drop_while Py.isspace (String x s)) as Hsplit.
           rewrite Hd in Hsplit.
           cbn [append]. rewrite append_assoc. cbn [append].
           rewrite take_drop_while. symmetry. exact Hsplit.
        -- intros H. destruct (IH H) as (pre & post & -> & Hpost).
           exists (String x pre), post. auto.
    + intros H. destruct (IH H) as (pre & post & -> & Hpost).
      exists (String x pre), post. auto.
Qed.

(** ** The rendered line *)

Lemma prefix_append (a b : string) : String.prefix a (a ++ b) = true.
Proof.
  induction a as [|c a IH]; simpl; [now destruct b|].
  destruct (ascii_dec c c); [exact IH|contradiction].
Qed.

Lemma prefix_append_mid (a b c : string) :
  String.prefix (a ++ b) (a ++ (b ++ c)) = true.
Proof. rewrite <- append_assoc. apply prefix_append. Qed.

Lemma escape_cons (c : ascii) (s : string) :
  escape (String c s)
  = if Ascii.eqb c Py.dquote then escaped_quote ++ escape s
    else String c (escape s).
Proof. reflexivity. Qed.

(** In an escaped text a double quote always follows a backslash. *)
Lemma escape_quotes_escaped (s : string) :
  forall i, String.get i (escape s) = Some Py.dquote ->
    exists j, i = S j /\ String.get j (escape s) = Some Py.backslash.
Proof.
  induction s as [|c s IH]; intros i Hi.
  - destruct i; discriminate.
  - rewrite escape_cons in *.
    destruct (Ascii.eqb c Py.dquote) eqn:Hc.
    + destruct i as [|[|i]].
      * discriminate.
      * exists 0%nat. split; reflexivity.
      * cbn in Hi. destruct (IH i Hi) as (j & -> & Hj).
        exists (S (S j)). split; [reflexivity|]. exact Hj.
    + destruct i as [|i].
      * cbn in Hi. injection Hi as ->. discriminate.
      * cbn in Hi. destruct (IH i Hi) as (j & -> & Hj).
        exists (S j). split; [reflexivity|]. exact Hj.
Qed.

Lemma digit_not_quote (n : N) : Ascii.eqb (Base64.digit n) Py.dquote = false.
Proof.
  unfold Base64.digit. generalize (N.to_nat n). intros i.
  do 64 (destruct i as [|i]; [reflexivity|]). reflexivity.
Qed.

Lemma escape_digit (n : N) (s : string) :
  escape (String (Base64.digit n) s) = String (Base64.digit n) (escape s).
Proof. now rewrite escape_cons, digit_not_quote. Qed.

(** Base64 text holds no double quote: escaping leaves it as it is. *)
Lemma escape_b64encode (bs : list byte) :
  escape (Base64.b64encode bs) = Base64.b64encode bs.
Proof.
  assert (H : forall n bs, (length bs <= n)%nat ->
                escape (Base64.b64encode bs) = Base64.b64encode bs).
  { clear bs. induction n as [|n IH]; intros bs Hn.
    - destruct bs; [reflexivity|simpl in Hn; lia].
    - destruct bs as [|a [|b [|c rest]]];
        cbn [Base64.b64encode]; rewrite ?escape_digit; try reflexivity.
      rewrite IH by (simpl in Hn; lia). reflexivity. }
  now apply (H (length bs)).
Qed.

(** The line appended for a bytes value holds its base64 text as it is. *)
Lemma render_bytes `{Formatter} (k : PyValue) (b : list byte) (n : Z)
    (source_line : string) :
  render (mkYAMLValue k (PyBytes b) n source_line)
    = Ok (format_field k ++ ": " ++ quote ++ Base64.b64encode b ++ quote
            ++ comment_of source_line).
Proof.
  unfold render. cbn [value key line].
  change (Py.replace Py.dquote escaped_quote (Base64.b64encode b))
    with (escape (Base64.b64encode b)).
  now rewrite escape_b64encode.
Qed.

(** The comment appended to a line is found in the stripped source line:
    it is the first run of whitespace directly followed by [#], that [#],
    and the characters after it up to the end of the line or up to the
    first whitespace character that is not a space; it is empty when no
    [#] follows whitespace. The line [key: value # secret here] is rendered
    with [ # secret here] after the quoted value. *)
Lemma comment_of_rule (source_line : string) :
  comment_of source_line
    = match first_comment (Py.strip source_line) with
      | Some c => c
      | None => EmptyString
      end
  /\ (forall c, first_comment (Py.strip source_line) = Some c ->
        exists pre post,
          Py.strip source_line = pre ++ c ++ post
          /\ (post = EmptyString
              \/ exists h t, post = String h t /\ comment_char h = false))
  /\ @render strings_only (mkYAMLValue (PyStr "key") (PyStr "value") 1 line_secret)
     = Ok ("key: " ++ quote ++ "value" ++ quote ++ " # secret here").
Proof.
  split; [|split; [|reflexivity]].
  - unfold comment_of. now rewrite search_comment.
  - intros c. apply first_comment_extent.
Qed.

(** C8. The code on a comment that holds a tab: the comment taken from
    [key: value # a<TAB>b] stops before the tab, it is not the end of the
    line, and the reconstructed line ends with [ # a]. *)
Theorem comment_stops_at_tab :
  Py.strip line_tabbed = "key: value # a" ++ tab ++ "b"
  /\ comment_of line_tabbed = " # a"
  /\ endswith (Py.strip line_tabbed) (comment_of line_tabbed) = false
  /\ @parse_file (loads doc_tabbed (Ok data_tabbed)) strings_only
       (mkNamedIO "tabbed.yaml" doc_tabbed)
     = Ok [ "key: " ++ quote ++ "value" ++ quote ++ " # a" ].
Proof. repeat split. Qed.

(** ** [YAMLFileParser.__iter__] *)

(** C9, as the code has it. An item in which the test for the [__line__]
    marker is false or raises [TypeError] is never yielded and never ends
    the traversal with an error: a dict has its values queued, a list,
    tuple or set its elements, and every other value (a number, [None],
    bytes, a string without the marker) is skipped. *)
Theorem unmarked_item_descended_or_skipped (lines : list string)
    (item : PyValue) :
  py_in "__line__" item <> Ok true ->
  visit lines item
    = match item with
      | PyDict l => if truthy item then Extend (map snd l) else Skip
      | PyList l | PyTuple l | PySet l =>
          if truthy item then Extend l else Skip
      | _ => Skip
      end
  /\ (forall v, visit lines item <> Yield v)
  /\ (forall e, visit lines item <> Abort e).
Proof.
  intros Hin.
  assert (Hv : visit lines item
               = match item with
                 | PyDict l => if truthy item then Extend (map snd l) else Skip
                 | PyList l | PyTuple l | PySet l =>
                     if truthy item then Extend l else Skip
                 | _ => Skip
                 end).
  { unfold visit.
    destruct item; simpl in *;
      try reflexivity;
      try (match goal with |- context [negb ?b] => destruct b end; reflexivity);
      try (destruct b as [|? ?]; reflexivity);
      try (destruct l as [|x l]; [reflexivity|];
           match goal with
           | |- context [existsb ?f ?xs] =>
               destruct (existsb f xs) eqn:Hex; [now elim Hin|reflexivity]
           end).
    - destruct (String.eqb s EmptyString); simpl; [reflexivity|].
      destruct (Py.contains "__line__" s); [now elim Hin|reflexivity]. }
  split; [exact Hv|].
  split; intros x Hx; rewrite Hv in Hx;
    destruct item; try discriminate;
    destruct (truthy _); discriminate.
Qed.

Lemma unmarked_item_descended_or_skipped_witness :
  py_in "__line__" (PyList [PyInt 5; PyStr "five"]) <> Ok true
  /\ visit [] (PyList [PyInt 5; PyStr "five"])
     = Extend [PyInt 5; PyStr "five"]
  /\ visit [] (PyInt 5) = Skip
  /\ visit [] (PyStr "five") = Skip.
Proof.
  split; [discriminate|].
  split; [|split; reflexivity].
  apply (unmarked_item_descended_or_skipped [] (PyList [PyInt 5; PyStr "five"])).
  discriminate.
Defined.

(** C9, as stated, fails: a mapping of four fields, three of them named
    like the markers, is not the three-field mapping the composer writes,
    and it is yielded; a mapping whose one key is named like the line
    marker ends the traversal with [KeyError]. *)
Lemma four_field_mapping_is_yielded :
  @YAMLFileParser_iter (loads doc_four_fields (Ok data_four_fields))
    doc_four_fields
  = Ok [ mkYAMLValue (PyInt 1) (PyInt 2) 1 "__original_key__: 1" ]
  /\ @YAMLFileParser_iter (loads doc_line_only (Ok data_line_only))
       doc_line_only
     = Raise KeyError.
Proof. split; reflexivity. Qed.

(** The marker test is a substring test on a string and an element test on
    a list: such an item ends the traversal, and [parse_file], with
    [TypeError]. *)
Lemma marker_inside_string_raises :
  flatten ["x__line__y"] [PyStr "x__line__y"] = Raise TypeError
  /\ flatten ["- __line__"] [PyList [PyStr "__line__"]] = Raise TypeError
  /\ @parse_file (loads doc_scalar (Ok data_scalar)) strings_only
       (mkNamedIO "scalar.yaml" doc_scalar)
     = Raise TypeError.
Proof. repeat split. Qed.

(** ** [_tag_dict_values] *)

Lemma tag_pairs_rewrites (t : string) (pairs : list (Node * Node)) :
  Forall (fun kv => is_str_or_binary (snd kv) = true ->
                    __line__ (snd kv) <> None) pairs ->
  exists pairs',
    tag_pairs t pairs = Ok pairs' /\ Forall2 (rewritten_pair t) pairs pairs'.
Proof.
  induction 1 as [|[k v] pairs Hkv Hrest (pairs' & Hrun & Hall)].
  - exists []. split; [reflexivity|constructor].
  - simpl in Hkv. cbn [tag_pairs]. unfold augmented_string.
    destruct (is_str_or_binary v) eqn:Htag; cbn [negb].
    + destruct (__line__ v) as [n|] eqn:Hline; [|now elim Hkv].
      cbn [bind]. rewrite Hrun. cbn [bind]. eexists. split; [reflexivity|].
      constructor; [|exact Hall].
      split; [reflexivity|]. cbn [fst snd]. rewrite Htag.
      exists n. split; [exact Hline|reflexivity].
    + cbn [bind]. rewrite Hrun. cbn [bind]. eexists. split; [reflexivity|].
      constructor; [|exact Hall].
      split; [reflexivity|]. cbn [fst snd]. now rewrite Htag.
Qed.

(** C4, as the code has it. [_tag_dict_values] returns a mapping with the
    tag, marks and flow style of the one it is given and the same keys in
    the same order; a pair whose value carries a tag ending in [:str] or
    [:binary], whatever the class of that node, has its value replaced by
    a mapping of exactly the three fields [__value__], [__line__] and
    [__original_key__]; a pair whose value carries any other tag is kept
    as it is. *)
Theorem tag_dict_values_rewrites (t : string) (pairs : list (Node * Node))
    (sm em : option Mark) (fs : option bool) (ln : option Z) :
  Forall (fun kv => is_str_or_binary (snd kv) = true ->
                    __line__ (snd kv) <> None) pairs ->
  exists pairs',
    _tag_dict_values (mkNode MappingNode t (VMap pairs) sm em fs ln)
      = Ok (mkNode MappingNode t (VMap pairs') sm em fs None)
    /\ Forall2 (rewritten_pair t) pairs pairs'.
Proof.
  intros Hlines.
  destruct (tag_pairs_rewrites t pairs Hlines) as (pairs' & Hrun & Hall).
  exists pairs'. split; [|exact Hall].
  unfold _tag_dict_values. cbn [node_value iter_pairs bind tag].
  rewrite Hrun. reflexivity.
Qed.

Lemma tag_dict_values_rewrites_witness :
  Forall (fun kv => is_str_or_binary (snd kv) = true ->
                    __line__ (snd kv) <> None)
    [ (scalar str_tag "a" (Some 1), scalar str_tag "b" (Some 1));
      (scalar str_tag "c" (Some 2), scalar int_tag "1" (Some 2)) ]
  /\ exists pairs',
       _tag_dict_values mapping_plain
         = Ok (mkNode MappingNode map_tag (VMap pairs') None None
                 (Some false) None)
       /\ Forall2 (rewritten_pair map_tag)
            [ (scalar str_tag "a" (Some 1), scalar str_tag "b" (Some 1));
              (scalar str_tag "c" (Some 2), scalar int_tag "1" (Some 2)) ]
            pairs'.
Proof.
  assert (H : Forall (fun kv => is_str_or_binary (snd kv) = true ->
                                __line__ (snd kv) <> None)
                [ (scalar str_tag "a" (Some 1), scalar str_tag "b" (Some 1));
                  (scalar str_tag "c" (Some 2), scalar int_tag "1" (Some 2)) ]).
  { repeat constructor; simpl; discriminate. }
  split; [exact H|].
  exact (tag_dict_values_rewrites map_tag _ None None (Some false) (Some 1) H).
Defined.

(** C4, as stated, fails: a sequence node that carries the string tag is
    not a scalar, and its pair is rewritten all the same. *)
Lemma tagged_sequence_is_rewritten :
  node_class tagged_sequence = SequenceNode
  /\ _tag_dict_values mapping_with_tagged_sequence
     = Ok (mkNode MappingNode map_tag
             (VMap [ (scalar str_tag "a" (Some 1),
                      new_MappingNode map_tag
                        (three_fields (scalar str_tag "a" (Some 1))
                           tagged_sequence 1)) ])
             None None (Some false) None).
Proof. split; reflexivity. Qed.

(** ** The shims *)

Lemma check_next_tokens_rule {I : Type} (self : YAMLFileParser I) :
  _check_next_tokens_shim self [FlowEntryToken; KeyToken]
  = separator_then_key (tokens (loader self)).
Proof.
  unfold _check_next_tokens_shim, separator_then_key.
  destruct (tokens (loader self)) as [|t1 [|t2 rest]]; reflexivity.
Qed.

Lemma getitem_last {A : Type} (l : list A) (a : A) :
  Py.getitem (l ++ [a]) (-1) = Ok a.
Proof.
  unfold Py.getitem. rewrite length_app. cbn [length].
  change (-1 <? 0) with true. cbv iota.
  replace (-1 + Z.of_nat (length l + 1)) with (Z.of_nat (length l)) by lia.
  destruct (_ || _) eqn:Hb.
  - apply orb_true_iff in Hb as [Hb|Hb];
      [apply Z.ltb_lt in Hb|apply Z.leb_le in Hb]; lia.
  - rewrite Nat2Z.id, nth_error_app2, Nat.sub_diag by lia. reflexivity.
Qed.

Lemma key_shim_not_first {I E : Type} `{LoaderInternals I E}
    (self : YAMLFileParser I) :
  _parse_flow_mapping_key_shim false self
  = (parsed <- Parser_parse_flow_mapping_key false (loader self) ;;
     Ok (fst parsed,
         mkYAMLFileParser (content self) (snd parsed)
           (separator_then_key (tokens (loader self))))).
Proof.
  unfold _parse_flow_mapping_key_shim, is_inline_dictionary.
  cbn [bind fst snd]. rewrite check_next_tokens_rule. reflexivity.
Qed.

Lemma key_shim_first {I E : Type} `{LoaderInternals I E}
    (self : YAMLFileParser I) (ms : list Mark) (m : Mark) (t : Token)
    (l' : Loader I) :
  marks (loader self) = (ms ++ [m])%list ->
  peek_token (loader self) = Ok (Some t, l') ->
  _parse_flow_mapping_key_shim true self
  = (parsed <- Parser_parse_flow_mapping_key true l' ;;
     Ok (fst parsed,
         mkYAMLFileParser (content self) (snd parsed)
           ((mark_line m =? mark_line (token_start_mark t))
            || separator_then_key (tokens l')))).
Proof.
  intros Hmarks Hpeek.
  unfold _parse_flow_mapping_key_shim, is_inline_dictionary.
  rewrite Hmarks, getitem_last. cbn [bind]. rewrite Hpeek. cbn [bind fst snd].
  destruct (mark_line m =? mark_line (token_start_mark t)).
  - reflexivity.
  - cbn [bind fst snd]. rewrite check_next_tokens_rule. reflexivity.
Qed.

Lemma compose_shim_stamp {I E : Type} `{LoaderInternals I E}
    (self self' : YAMLFileParser I) (parent index : option Node)
    (node : Node) (ms : list Mark) (m : Mark) :
  marks (loader self) = (ms ++ [m])%list ->
  Composer_compose_node parent index self = Ok (node, self') ->
  endswith (tag node) ":map" = false ->
  _compose_node_shim parent index self
  = Ok (set___line__ node
          ((if is_inline_flow_mapping_key self then mark_line m
            else loader_line (loader self)) + 1), self').
Proof.
  intros Hmarks Hcomp Htag.
  unfold _compose_node_shim, stamp_line.
  destruct (is_inline_flow_mapping_key self).
  - rewrite Hmarks, getitem_last. cbn [bind]. rewrite Hcomp.
    cbn [bind fst snd]. cbn [set___line__ tag]. now rewrite Htag.
  - cbn [bind]. rewrite Hcomp.
    cbn [bind fst snd]. cbn [set___line__ tag]. now rewrite Htag.
Qed.

(** C3, as the code has it. Before a key of a flow mapping is parsed, the
    flag is set: for a key that is not the first, to whether the queue of
    scanned tokens begins with a flow-entry separator followed, if a second
    token has been scanned, by a key marker; for the first key, to whether
    the line of the last mark equals the line of the upcoming token or the
    queue, as [peek_token] left it, passes the same test. A node composed
    while the flag is set is stamped with the line of the last mark plus
    one, otherwise with the line cursor plus one. So the node composed
    after a key that is not the first gets the line of the last mark when
    the queue passed the test, and the line of the cursor when it did not,
    as when the scalar of the next key has been scanned and its colon has
    not. *)
Theorem inline_key_flag_rule {I E : Type} `{LoaderInternals I E}
    (self : YAMLFileParser I) (parent index : option Node) :
  _parse_flow_mapping_key_shim false self
    = (parsed <- Parser_parse_flow_mapping_key false (loader self) ;;
       Ok (fst parsed,
           mkYAMLFileParser (content self) (snd parsed)
             (separator_then_key (tokens (loader self)))))
  /\ (forall ms m t l',
        marks (loader self) = (ms ++ [m])%list ->
        peek_token (loader self) = Ok (Some t, l') ->
        _parse_flow_mapping_key_shim true self
          = (parsed <- Parser_parse_flow_mapping_key true l' ;;
             Ok (fst parsed,
                 mkYAMLFileParser (content self) (snd parsed)
                   ((mark_line m =? mark_line (token_start_mark t))
                    || separator_then_key (tokens l')))))
  /\ (forall ms m node self',
        marks (loader self) = (ms ++ [m])%list ->
        Composer_compose_node parent index self = Ok (node, self') ->
        endswith (tag node) ":map" = false ->
        _compose_node_shim parent index self
          = Ok (set___line__ node
                  ((if is_inline_flow_mapping_key self then mark_line m
                    else loader_line (loader self)) + 1), self'))
  /\ (forall ev after ms m node self',
        _parse_flow_mapping_key_shim false self = Ok (ev, after) ->
        marks (loader after) = (ms ++ [m])%list ->
        Composer_compose_node parent index after = Ok (node, self') ->
        endswith (tag node) ":map" = false ->
        _compose_node_shim parent index after
          = Ok (set___line__ node
                  ((if separator_then_key (tokens (loader self))
                    then mark_line m
                    else loader_line (loader after)) + 1), self')).
Proof.
  split; [apply key_shim_not_first|].
  split; [intros; eapply key_shim_first; eauto|].
  split; [intros; eapply compose_shim_stamp; eauto|].
  intros ev after ms m node self' Hkey Hmarks Hcomp Htag.
  rewrite (compose_shim_stamp after self' parent index node ms m Hmarks Hcomp Htag).
  rewrite key_shim_not_first in Hkey.
  destruct (Parser_parse_flow_mapping_key false (loader self)) as [parsed|];
    [|discriminate].
  cbn [bind] in Hkey. injection Hkey as _ <-. reflexivity.
Qed.

Lemma inline_key_flag_rule_witness :
  @_parse_flow_mapping_key_shim unit unit
    (fixed_internals (scalar str_tag "key2" None)) false
    (in_flow_mapping 2 [separator; next_scalar] true)
    = Ok (tt, in_flow_mapping 2 [separator; next_scalar] false)
  /\ marks (loader (in_flow_mapping 2 [separator; next_scalar] false))
     = ([] ++ [mkMark 0 0])%list
  /\ @Composer_compose_node unit unit
       (fixed_internals (scalar str_tag "key2" None)) None None
       (in_flow_mapping 2 [separator; next_scalar] false)
     = Ok (scalar str_tag "key2" None,
           in_flow_mapping 2 [separator; next_scalar] false)
  /\ endswith (tag (scalar str_tag "key2" None)) ":map" = false
  /\ @_compose_node_shim unit unit
       (fixed_internals (scalar str_tag "key2" None)) None None
       (in_flow_mapping 2 [separator; next_scalar] false)
     = Ok (scalar str_tag "key2" (Some 3),
           in_flow_mapping 2 [separator; next_scalar] false).
Proof.
  split; [reflexivity|]. split; [reflexivity|]. split; [reflexivity|].
  split; [reflexivity|].
  exact (proj2 (proj2 (proj2
           (@inline_key_flag_rule unit unit
              (fixed_internals (scalar str_tag "key2" None))
              (in_flow_mapping 2 [separator; next_scalar] true)
              None None)))
           tt (in_flow_mapping 2 [separator; next_scalar] false)
           [] (mkMark 0 0) (scalar str_tag "key2" None)
           (in_flow_mapping 2 [separator; next_scalar] false)
           eq_refl eq_refl eq_refl eq_refl).
Defined.

(** C3, as stated, fails: with the separator as the one scanned token the
    queue does not hold a separator followed by a key marker, and the flag
    is set; the node composed next gets the line of the mark, not the line
    of the cursor. *)
Lemma flag_set_on_separator_alone :
  two_tokens_separator_key (tokens (loader (in_flow_mapping 2 [separator] false)))
    = false
  /\ @_parse_flow_mapping_key_shim unit unit
       (fixed_internals (scalar str_tag "key2" None)) false
       (in_flow_mapping 2 [separator] false)
     = Ok (tt, in_flow_mapping 2 [separator] true)
  /\ @_compose_node_shim unit unit
       (fixed_internals (scalar str_tag "key2" None)) None None
       (in_flow_mapping 2 [separator] true)
     = Ok (scalar str_tag "key2" (Some 1), in_flow_mapping 2 [separator] true).
Proof. repeat split. Qed.

(** A node whose tag ends in [:map] is handed to [_tag_dict_values], and
    the flag is cleared. *)
Lemma compose_node_shim_mapping {I E : Type} `{LoaderInternals I E}
    (self self' : YAMLFileParser I) (parent index : option Node)
    (node : Node) (line : Z) :
  stamp_line self = Ok line ->
  Composer_compose_node parent index self = Ok (node, self') ->
  endswith (tag node) ":map" = true ->
  _compose_node_shim parent index self
    = (tagged <- _tag_dict_values (set___line__ node (line + 1)) ;;
       Ok (tagged, set_is_inline_flow_mapping_key self' false)).
Proof.
  intros Hline Hcomp Htag. unfold _compose_node_shim.
  rewrite Hline. cbn [bind]. rewrite Hcomp. cbn [bind fst snd].
  cbn [set___line__ tag]. now rewrite Htag.
Qed.

(* ================================================================== *)
(** * Further properties *)

(** ** The traversal *)

Lemma getitem_in_range {A : Type} (l : list A) (i : Z) (d : A) :
  0 <= i < Z.of_nat (length l) ->
  Py.getitem l i = Ok (nth (Z.to_nat i) l d).
Proof.
  intros Hi. unfold Py.getitem.
  destruct (i <? 0) eqn:Hneg; [apply Z.ltb_lt in Hneg; lia|].
  destruct (_ || _) eqn:Hb.
  - apply orb_true_iff in Hb as [Hb|Hb];
      [apply Z.ltb_lt in Hb|apply Z.leb_le in Hb]; lia.
  - destruct (nth_error l (Z.to_nat i)) as [a|] eqn:Hn.
    + now rewrite (nth_error_nth _ _ d Hn).
    + apply nth_error_None in Hn. lia.
Qed.

Lemma visit_falsy (lines : list string) (item : PyValue) :
  truthy item = false -> visit lines item = Skip.
Proof. intros H. unfold visit. now rewrite H. Qed.

Lemma visit_plain_scalar (lines : list string) (v : PyValue) :
  plain_scalar v = true -> visit lines v = Skip.
Proof.
  intros Hp. unfold visit.
  destruct (truthy v); [cbn [negb]|reflexivity].
  destruct v; try discriminate; try reflexivity.
  cbn in Hp |- *. destruct (Py.contains "__line__" s); [discriminate|reflexivity].
Qed.

Lemma flatten_plain_scalars (lines : list string) (q : list PyValue) :
  Forall (fun v => plain_scalar v = true) q -> flatten lines q = Ok [].
Proof.
  induction 1 as [|v q Hv Hq IH]; [reflexivity|].
  now rewrite flatten_cons, visit_plain_scalar.
Qed.

Lemma plain_scalar_not_marker (l : list PyValue) :
  Forall (fun v => plain_scalar v = true) l ->
  existsb (eq_str "__line__") l = false.
Proof.
  induction 1 as [|v l Hv Hl IH]; [reflexivity|].
  cbn [existsb]. rewrite IH, orb_false_r.
  destruct v; try reflexivity. cbn in Hv |- *.
  destruct (String.eqb s "__line__") eqn:He; [|reflexivity].
  apply String.eqb_eq in He. subst s. discriminate.
Qed.

(** X1. A document that loads as a false value (nothing but comments, an
    empty mapping or sequence, an empty string, zero) gives the empty
    list. *)
Theorem parse_file_falsy_document `{SafeLoader} `{Formatter} (file : NamedIO)
    (data : PyValue) :
  get_single_data (read file) = Ok data ->
  truthy data = false ->
  YAMLFileParser_iter (read file) = Ok [] /\ parse_file file = Ok [].
Proof.
  intros Hload Hfalse.
  assert (Hiter : YAMLFileParser_iter (read file) = Ok []).
  { unfold YAMLFileParser_iter. rewrite Hload. cbn [bind].
    now rewrite flatten_cons, visit_falsy. }
  split; [exact Hiter|]. now rewrite (parse_file_ok file [] Hiter).
Qed.

Lemma parse_file_falsy_document_witness :
  @get_single_data (loads "# nothing here" (Ok PyNone))
    (read (mkNamedIO "comments.yaml" "# nothing here")) = Ok PyNone
  /\ truthy PyNone = false
  /\ @YAMLFileParser_iter (loads "# nothing here" (Ok PyNone))
       (read (mkNamedIO "comments.yaml" "# nothing here")) = Ok []
  /\ @parse_file (loads "# nothing here" (Ok PyNone)) strings_only
       (mkNamedIO "comments.yaml" "# nothing here") = Ok [].
Proof.
  split; [reflexivity|]. split; [reflexivity|].
  apply (@parse_file_falsy_document (loads "# nothing here" (Ok PyNone))
           strings_only (mkNamedIO "comments.yaml" "# nothing here") PyNone);
    reflexivity.
Defined.

(** X2. The elements of a list, tuple or set are searched, but scalars in
    it that carry no marker are never yielded: a sequence of strings and
    numbers yields nothing. *)
Theorem flatten_sequence_of_scalars (lines : list string) (l : list PyValue) :
  Forall (fun v => plain_scalar v = true) l ->
  flatten lines [PyList l] = Ok []
  /\ flatten lines [PyTuple l] = Ok []
  /\ flatten lines [PySet l] = Ok [].
Proof.
  intros Hl.
  pose proof (plain_scalar_not_marker l Hl) as Hm.
  pose proof (flatten_plain_scalars lines l Hl) as Hq.
  repeat split; rewrite flatten_cons; unfold visit;
    (destruct l as [|x l]; [reflexivity|]);
    cbn [truthy negb py_in]; rewrite Hm;
    cbn [isinstance_str extend_items app]; exact Hq.
Qed.

Lemma flatten_sequence_of_scalars_witness :
  Forall (fun v => plain_scalar v = true) [PyStr "hunter2"; PyInt 80; PyNone]
  /\ flatten ["- hunter2"; "- 80"; "-"] [PyList [PyStr "hunter2"; PyInt 80; PyNone]]
     = Ok []
  /\ flatten ["- hunter2"; "- 80"; "-"] [PyTuple [PyStr "hunter2"; PyInt 80; PyNone]]
     = Ok []
  /\ flatten ["- hunter2"; "- 80"; "-"] [PySet [PyStr "hunter2"; PyInt 80; PyNone]]
     = Ok [].
Proof.
  assert (H : Forall (fun v => plain_scalar v = true)
                [PyStr "hunter2"; PyInt 80; PyNone])
    by (repeat constructor).
  split; [exact H|].
  exact (flatten_sequence_of_scalars ["- hunter2"; "- 80"; "-"] _ H).
Defined.

Lemma visit_annotated (lines : list string) (e : string * PyValue * Z) :
  1 <= snd e <= Z.of_nat (length lines) ->
  visit lines (annotated (fst (fst e)) (snd (fst e)) (snd e))
  = Yield (yielded_for lines e).
Proof.
  destruct e as [[k v] n]. cbn [fst snd]. intros Hn.
  unfold visit, make_value, annotated, yielded_for. cbn.
  rewrite (getitem_in_range lines (n - 1) EmptyString) by lia.
  reflexivity.
Qed.

Lemma flatten_annotated (lines : list string)
    (entries : list (string * PyValue * Z)) :
  Forall (fun e => 1 <= snd e <= Z.of_nat (length lines)) entries ->
  flatten lines
    (map (fun e : string * PyValue * Z =>
            annotated (fst (fst e)) (snd (fst e)) (snd e)) entries)
  = Ok (map (yielded_for lines) entries).
Proof.
  induction 1 as [|e entries He Hrest IH]; [reflexivity|].
  cbn [map]. rewrite flatten_cons, (visit_annotated lines e He), IH.
  reflexivity.
Qed.

(** X3. A mapping all of whose values were rewritten, none of its own keys
    being [__line__], yields one value per pair, in the order of the pairs:
    the original key, the value, the line stored with it and the text of
    that line. *)
Theorem flatten_flat_mapping (lines : list string)
    (entries : list (string * PyValue * Z)) :
  Forall (fun e => 1 <= snd e <= Z.of_nat (length lines)) entries ->
  Forall (fun e => String.eqb (fst (fst e)) "__line__" = false) entries ->
  flatten lines [flat_mapping entries] = Ok (map (yielded_for lines) entries).
Proof.
  intros Hlines Hkeys.
  rewrite flatten_cons. unfold visit, flat_mapping.
  destruct entries as [|e entries]; [reflexivity|].
  cbn [map truthy negb py_in].
  assert (Hm : existsb (fun kv : PyValue * PyValue => eq_str "__line__" (fst kv))
                 (map (fun e : string * PyValue * Z =>
                         (PyStr (fst (fst e)),
                          annotated (fst (fst e)) (snd (fst e)) (snd e)))
                    (e :: entries)) = false).
  { clear Hlines. induction Hkeys as [|e' es He' Hes IH]; [reflexivity|].
    cbn [map existsb fst eq_str]. now rewrite He', IH. }
  cbn [map] in Hm. rewrite Hm.
  cbn [isinstance_str extend_items app map snd].
  rewrite map_map. cbn [snd].
  exact (flatten_annotated lines (e :: entries) Hlines).
Qed.

Lemma flatten_flat_mapping_witness :
  Forall (fun e => 1 <= snd e <= Z.of_nat (length lines_three)) entries_two
  /\ Forall (fun e => String.eqb (fst (fst e)) "__line__" = false) entries_two
  /\ flatten lines_three [flat_mapping entries_two]
     = Ok [ mkYAMLValue (PyStr "user") (PyStr "admin") 1 "user: admin";
            mkYAMLValue (PyStr "password") (PyStr "hunter2") 3
              "password: hunter2" ].
Proof.
  assert (H1 : Forall (fun e => 1 <= snd e <= Z.of_nat (length lines_three))
                 entries_two)
    by (repeat constructor; simpl; lia).
  assert (H2 : Forall (fun e => String.eqb (fst (fst e)) "__line__" = false)
                 entries_two)
    by (repeat constructor).
  split; [exact H1|]. split; [exact H2|].
  exact (flatten_flat_mapping lines_three entries_two H1 H2).
Defined.

Lemma visit_abort (lines : list string) (item : PyValue) (e : exn) :
  visit lines item = Abort e ->
  py_in "__line__" item = Ok true /\ make_value lines item = Raise e.
Proof.
  unfold visit.
  destruct (truthy item); cbn [negb]; [|discriminate].
  destruct item; cbn [py_in]; try discriminate;
    try (destruct (Py.contains _ _));
    try (destruct (existsb _ _));
    cbn [isinstance_str extend_items]; try discriminate;
    (destruct (make_value _ _) as [v|e'] eqn:Hm; [discriminate|]);
    intros H0; injection H0 as <-; auto.
Qed.

Lemma make_value_raises (lines : list string) (item : PyValue) (e : exn) :
  make_value lines item = Raise e ->
  e = TypeError \/ e = KeyError \/ e = IndexError.
Proof.
  assert (Hget : forall k x e', py_getitem x k = Raise e' ->
                   e' = TypeError \/ e' = KeyError).
  { intros k x e'. unfold py_getitem.
    destruct x; try (intros H0; injection H0 as <-; auto).
    destruct (find _ _); [discriminate|].
    intros H0; injection H0 as <-; auto. }
  unfold make_value.
  destruct (py_getitem item "__original_key__") as [k|e1] eqn:H1; cbn [bind];
    [|intros H0; injection H0 as <-; destruct (Hget _ _ _ H1); auto].
  destruct (py_getitem item "__value__") as [v|e2] eqn:H2; cbn [bind];
    [|intros H0; injection H0 as <-; destruct (Hget _ _ _ H2); auto].
  destruct (py_getitem item "__line__") as [ln|e3] eqn:H3; cbn [bind];
    [|intros H0; injection H0 as <-; destruct (Hget _ _ _ H3); auto].
  destruct (py_int ln) as [n|e4] eqn:H4; cbn [bind].
  - unfold Py.getitem.
    destruct (_ || _); cbn [bind];
      [intros H0; injection H0 as <-; auto|].
    destruct (nth_error _ _); cbn [bind]; [discriminate|].
    intros H0; injection H0 as <-; auto.
  - intros H0; injection H0 as <-.
    destruct ln; try discriminate; injection H4 as <-; auto.
Qed.

(** X4. The traversal ends with no other exception than [TypeError],
    [KeyError] and [IndexError]: the ones raised by the three subscripts of
    the [yield] and by the line lookup. *)
Theorem flatten_raises (lines : list string) (q : list PyValue) (e : exn) :
  flatten lines q = Raise e ->
  e = TypeError \/ e = KeyError \/ e = IndexError.
Proof.
  unfold flatten. generalize (queue_size q) as n.
  intros n. revert q. induction n as [|n IH]; intros q Hrun; [discriminate|].
  destruct q as [|item rest]; [discriminate|]. cbn [search_loop] in Hrun.
  destruct (visit lines item) as [|items|v|e'] eqn:Hv.
  - eauto.
  - eauto.
  - destruct (search_loop n lines rest) as [vs|e''] eqn:Hrest;
      cbn [bind] in Hrun; [discriminate|].
    injection Hrun as <-. eauto.
  - injection Hrun as <-. apply visit_abort in Hv as [_ Hm].
    eapply make_value_raises; eauto.
Qed.

Lemma flatten_raises_witness :
  flatten ["__line__: 5"] [data_line_only] = Raise KeyError
  /\ (KeyError = TypeError \/ KeyError = KeyError \/ KeyError = IndexError).
Proof.
  split; [reflexivity|].
  apply (flatten_raises ["__line__: 5"] [data_line_only] KeyError).
  reflexivity.
Defined.

Lemma flatten_app_both (lines : list string) :
  forall (n : nat) (q1 q2 : list PyValue),
    (queue_size (q1 ++ q2) <= n)%nat ->
    (forall c, flatten lines (q1 ++ q2) = Ok c ->
       exists a b, flatten lines q1 = Ok a /\ flatten lines q2 = Ok b
                   /\ Permutation c (a ++ b))
    /\ (forall a b, flatten lines q1 = Ok a -> flatten lines q2 = Ok b ->
          exists c, flatten lines (q1 ++ q2) = Ok c
                    /\ Permutation c (a ++ b)).
Proof.
  induction n as [|n IH]; intros q1 q2 Hn.
  - assert (q1 = []) as ->.
    { destruct q1 as [|item rest]; [reflexivity|].
      change (queue_size ((item :: rest) ++ q2))
        with (size item + queue_size (rest ++ q2))%nat in Hn.
      pose proof (size_pos item). lia. }
    cbn [app]. split.
    + intros c Hc. exists [], c. rewrite flatten_nil. auto.
    + intros a b Ha Hb. rewrite flatten_nil in Ha. injection Ha as <-.
      exists b. auto.
  - destruct q1 as [|item rest].
    { cbn [app]. split.
      + intros c Hc. exists [], c. rewrite flatten_nil. auto.
      + intros a b Ha Hb. rewrite flatten_nil in Ha. injection Ha as <-.
        exists b. auto. }
    assert (Hsize : (size item + queue_size (rest ++ q2) <= S n)%nat)
      by exact Hn.
    pose proof (size_pos item) as Hpos.
    rewrite queue_size_app in Hsize.
    cbn [app]. rewrite !flatten_cons.
    destruct (visit lines item) as [|items|v|e] eqn:Hv.
    + apply IH. rewrite queue_size_app. lia.
    + apply extend_smaller in Hv.
      assert (H1 : (queue_size ((rest ++ q2) ++ items) <= n)%nat)
        by (rewrite !queue_size_app; lia).
      assert (H2 : (queue_size (rest ++ q2) <= n)%nat)
        by (rewrite queue_size_app; lia).
      assert (H3 : (queue_size (rest ++ items) <= n)%nat)
        by (rewrite queue_size_app; lia).
      destruct (IH (rest ++ q2)%list items H1) as [Hsplit1 Hjoin1].
      destruct (IH rest q2 H2) as [Hsplit2 Hjoin2].
      destruct (IH rest items H3) as [Hsplit3 Hjoin3].
      split.
      * intros c Hc.
        destruct (Hsplit1 c Hc) as (x & y & Hx & Hy & Pc).
        destruct (Hsplit2 x Hx) as (a1 & b & Ha1 & Hb & Px).
        destruct (Hjoin3 a1 y Ha1 Hy) as (a & Ha & Pa).
        exists a, b. split; [exact Ha|]. split; [exact Hb|].
        eapply Permutation_trans; [exact Pc|].
        eapply Permutation_trans; [apply Permutation_app_tail; exact Px|].
        rewrite <- app_assoc.
        eapply Permutation_trans;
          [apply Permutation_app_head; apply Permutation_app_comm|].
        rewrite app_assoc. apply Permutation_app_tail.
        apply Permutation_sym. exact Pa.
      * intros a b Ha Hb.
        destruct (Hsplit3 a Ha) as (a1 & y & Ha1 & Hy & Pa).
        destruct (Hjoin2 a1 b Ha1 Hb) as (x & Hx & Px).
        destruct (Hjoin1 x y Hx Hy) as (c & Hc & Pc).
        exists c. split; [exact Hc|].
        eapply Permutation_trans; [exact Pc|].
        eapply Permutation_trans; [apply Permutation_app_tail; exact Px|].
        rewrite <- app_assoc.
        eapply Permutation_trans;
          [apply Permutation_app_head; apply Permutation_app_comm|].
        rewrite app_assoc. apply Permutation_app_tail.
        apply Permutation_sym. exact Pa.
    + assert (H2 : (queue_size (rest ++ q2) <= n)%nat)
        by (rewrite queue_size_app; lia).
      destruct (IH rest q2 H2) as [Hsplit Hjoin].
      split.
      * intros c Hc.
        destruct (flatten lines (rest ++ q2)) as [c'|] eqn:Hc';
          cbn [bind] in Hc; [|discriminate].
        injection Hc as <-.
        destruct (Hsplit c' eq_refl) as (a & b & Ha & Hb & P).
        exists (v :: a), b. rewrite Ha. cbn [bind].
        split; [reflexivity|]. split; [exact Hb|].
        cbn [app]. now apply perm_skip.
      * intros a b Ha Hb.
        destruct (flatten lines rest) as [a'|] eqn:Ha';
          cbn [bind] in Ha; [|discriminate].
        injection Ha as <-.
        destruct (Hjoin a' b eq_refl Hb) as (c & Hc & P).
        exists (v :: c). rewrite Hc. cbn [bind].
        split; [reflexivity|]. cbn [app]. now apply perm_skip.
    + split; [discriminate|]. intros a b Ha. discriminate.
Qed.

(** X5. What a queue yields is, up to order, what its parts yield: when
    the traversal of two queues completes, the traversal of the two put one
    after the other completes with the same values, each as many times, and
    conversely. *)
Theorem flatten_app (lines : list string) (q1 q2 : list PyValue) :
  (forall a b, flatten lines q1 = Ok a -> flatten lines q2 = Ok b ->
     exists c, flatten lines (q1 ++ q2) = Ok c /\ Permutation c (a ++ b))
  /\ (forall c, flatten lines (q1 ++ q2) = Ok c ->
        exists a b, flatten lines q1 = Ok a /\ flatten lines q2 = Ok b
                    /\ Permutation c (a ++ b)).
Proof.
  destruct (flatten_app_both lines (queue_size (q1 ++ q2)) q1 q2 (Nat.le_refl _))
    as [Hsplit Hjoin].
  split; assumption.
Qed.

Lemma flatten_app_witness :
  flatten lines_three [PyList [flat_mapping entries_two]]
    = Ok (map (yielded_for lines_three) entries_two)
  /\ flatten lines_three [annotated "port" (PyStr "80") 2]
     = Ok [mkYAMLValue (PyStr "port") (PyStr "80") 2 "port: 80"]
  /\ exists c,
       flatten lines_three
         ([PyList [flat_mapping entries_two]] ++ [annotated "port" (PyStr "80") 2])
         = Ok c
       /\ Permutation c
            (map (yielded_for lines_three) entries_two
               ++ [mkYAMLValue (PyStr "port") (PyStr "80") 2 "port: 80"]).
Proof.
  split; [reflexivity|]. split; [reflexivity|].
  apply (proj1 (flatten_app lines_three [PyList [flat_mapping entries_two]]
                  [annotated "port" (PyStr "80") 2])); reflexivity.
Defined.

(** X6. A root that is a string holding the marker text, or a list, tuple
    or set holding the marker string, passes the marker test and cannot be
    subscripted: the traversal, and [parse_file], end with [TypeError]. *)
Theorem parse_file_marker_in_sequence `{SafeLoader} `{Formatter}
    (file : NamedIO) (data : PyValue) :
  get_single_data (read file) = Ok data ->
  py_in "__line__" data = Ok true ->
  (forall l, data <> PyDict l) ->
  YAMLFileParser_iter (read file) = Raise TypeError
  /\ parse_file file = Raise TypeError.
Proof.
  intros Hload Hin Hdict.
  assert (Hiter : YAMLFileParser_iter (read file) = Raise TypeError).
  { unfold YAMLFileParser_iter. rewrite Hload. cbn [bind].
    rewrite flatten_cons. unfold visit. rewrite Hin.
    destruct data; cbn [py_in] in Hin; try discriminate.
    - destruct s; [discriminate|reflexivity].
    - destruct l; [discriminate|reflexivity].
    - destruct l; [discriminate|reflexivity].
    - destruct l; [discriminate|reflexivity].
    - now elim (Hdict l). }
  split; [exact Hiter|]. unfold parse_file. now rewrite Hiter.
Qed.

Lemma parse_file_marker_in_sequence_witness :
  @get_single_data (loads doc_scalar (Ok data_scalar))
    (read (mkNamedIO "scalar.yaml" doc_scalar)) = Ok data_scalar
  /\ py_in "__line__" data_scalar = Ok true
  /\ (forall l, data_scalar <> PyDict l)
  /\ @YAMLFileParser_iter (loads doc_scalar (Ok data_scalar))
       (read (mkNamedIO "scalar.yaml" doc_scalar)) = Raise TypeError
  /\ @parse_file (loads doc_scalar (Ok data_scalar)) strings_only
       (mkNamedIO "scalar.yaml" doc_scalar) = Raise TypeError.
Proof.
  assert (Hd : forall l, data_scalar <> PyDict l) by (intros l; discriminate).
  split; [reflexivity|]. split; [reflexivity|]. split; [exact Hd|].
  exact (@parse_file_marker_in_sequence (loads doc_scalar (Ok data_scalar))
           strings_only (mkNamedIO "scalar.yaml" doc_scalar) data_scalar
           eq_refl eq_refl Hd).
Defined.

(** X7. A root mapping that has the key [__line__] is taken for a rewritten
    value: when it lacks [__original_key__], or has it and lacks
    [__value__], the traversal, and [parse_file], end with [KeyError]. *)
Theorem parse_file_marker_without_fields `{SafeLoader} `{Formatter}
    (file : NamedIO) (l : list (PyValue * PyValue)) :
  get_single_data (read file) = Ok (PyDict l) ->
  has_key "__line__" l = true ->
  has_key "__original_key__" l && has_key "__value__" l = false ->
  YAMLFileParser_iter (read file) = Raise KeyError
  /\ parse_file file = Raise KeyError.
Proof.
  intros Hload Hline Hmiss.
  assert (Hfind : forall k, has_key k l = false ->
                    py_getitem (PyDict l) k = Raise KeyError).
  { intros k Hk. unfold py_getitem.
    destruct (find _ l) as [kv|] eqn:Hf; [|reflexivity].
    apply find_some in Hf as [Hin Heq].
    unfold has_key in Hk.
    assert (existsb (fun kv => eq_str k (fst kv)) l = true)
      by (apply existsb_exists; eauto).
    congruence. }
  assert (Hok : forall k, has_key k l = true ->
                  exists v, py_getitem (PyDict l) k = Ok v).
  { intros k Hk. unfold py_getitem, has_key in *.
    apply existsb_exists in Hk as (kv & Hin & Heq).
    destruct (find _ l) as [kv'|] eqn:Hf; [eauto|].
    eapply find_none in Hf; eauto. cbn beta in Hf. congruence. }
  assert (Hiter : YAMLFileParser_iter (read file) = Raise KeyError).
  { unfold YAMLFileParser_iter. rewrite Hload. cbn [bind].
    rewrite flatten_cons. unfold visit.
    assert (Ht : truthy (PyDict l) = true)
      by (destruct l; [discriminate|reflexivity]).
    rewrite Ht. cbn [negb py_in]. fold (has_key "__line__" l). rewrite Hline.
    unfold make_value.
    destruct (has_key "__original_key__" l) eqn:Hk.
    - destruct (Hok _ Hk) as (v & ->). cbn [bind].
      cbn [andb] in Hmiss. now rewrite (Hfind _ Hmiss).
    - now rewrite (Hfind _ Hk). }
  split; [exact Hiter|]. unfold parse_file. now rewrite Hiter.
Qed.

Lemma parse_file_marker_without_fields_witness :
  @get_single_data (loads doc_line_only (Ok data_line_only))
    (read (mkNamedIO "line.yaml" doc_line_only))
    = Ok (PyDict [ (PyStr "__line__", PyInt 5) ])
  /\ has_key "__line__" [ (PyStr "__line__", PyInt 5) ] = true
  /\ has_key "__original_key__" [ (PyStr "__line__", PyInt 5) ]
     && has_key "__value__" [ (PyStr "__line__", PyInt 5) ] = false
  /\ @YAMLFileParser_iter (loads doc_line_only (Ok data_line_only))
       (read (mkNamedIO "line.yaml" doc_line_only)) = Raise KeyError
  /\ @parse_file (loads doc_line_only (Ok data_line_only)) strings_only
       (mkNamedIO "line.yaml" doc_line_only) = Raise KeyError.
Proof.
  split; [reflexivity|]. split; [reflexivity|]. split; [reflexivity|].
  exact (@parse_file_marker_without_fields (loads doc_line_only (Ok data_line_only))
           strings_only (mkNamedIO "line.yaml" doc_line_only)
           [ (PyStr "__line__", PyInt 5) ] eq_refl eq_refl eq_refl).
Defined.

(** ** Sorting and reconstruction *)

Lemma filter_insert_by_line (n : Z) (x : YAMLValue) (l : list YAMLValue) :
  filter (fun i => line_number i =? n) (insert_by_line x l)
  = filter (fun i => line_number i =? n) (x :: l).
Proof.
  induction l as [|y l IH]; [reflexivity|].
  cbn [insert_by_line].
  destruct (line_number x <=? line_number y) eqn:Hxy; [reflexivity|].
  apply Z.leb_gt in Hxy.
  cbn [filter] in *. rewrite IH.
  destruct (line_number x =? n) eqn:Hx; [|reflexivity].
  destruct (line_number y =? n) eqn:Hy; [|reflexivity].
  apply Z.eqb_eq in Hx, Hy. lia.
Qed.

(** X8. The sort is stable: the values recorded on one line stay in the
    order in which the traversal yielded them. *)
Theorem sorted_stable (items : list YAMLValue) (n : Z) :
  filter (fun i => line_number i =? n) (sorted items)
  = filter (fun i => line_number i =? n) items.
Proof.
  induction items as [|x items IH]; [reflexivity|].
  cbn [sorted fold_right]. fold (sorted items).
  rewrite filter_insert_by_line. cbn [filter]. now rewrite IH.
Qed.

Lemma rendered_nonblank `{Formatter} (item : YAMLValue) :
  nonblank (rendered item) = true.
Proof.
  unfold rendered, nonblank.
  destruct (format_field (key item)); reflexivity.
Qed.

Lemma filter_pad_lines (lines : list string) (n : Z) :
  filter nonblank (pad_lines lines n) = filter nonblank lines.
Proof.
  unfold pad_lines. rewrite filter_app.
  induction (Z.to_nat (n - Z.of_nat (length lines))) as [|k IH];
    cbn [repeat filter]; [now rewrite app_nil_r|exact IH].
Qed.

Lemma pad_lines_grows (lines : list string) (n : Z) :
  (length lines <= length (pad_lines lines n))%nat
  /\ n <= Z.of_nat (length (pad_lines lines n)).
Proof.
  unfold pad_lines. rewrite length_app, repeat_length. lia.
Qed.

Lemma reconstruct_text `{Formatter} :
  forall (items : list YAMLValue) (acc : list string),
    Forall (fun i => is_text (value i) = true) items ->
    exists out,
      reconstruct items acc = Ok out
      /\ filter nonblank out
         = (filter nonblank acc ++ map rendered items)%list
      /\ (length acc + length items <= length out)%nat
      /\ Forall (fun i => line_number i <= Z.of_nat (length out)) items
      /\ firstn (length acc) out = acc.
Proof.
  induction items as [|item items IH]; intros acc Htext.
  - exists acc. cbn [reconstruct map length]. rewrite app_nil_r, firstn_all.
    repeat split; try lia. constructor.
  - inversion Htext as [|? ? Hv Htext']; subst.
    cbn [reconstruct]. rewrite (render_text item Hv). cbn [bind].
    set (padded := pad_lines acc (line_number item - 1)).
    destruct (pad_lines_grows acc (line_number item - 1)) as [Hg1 Hg2].
    fold padded in Hg1, Hg2.
    destruct (IH (padded ++ [rendered item])%list Htext')
      as (out & Hrun & Hfil & Hlen & Hall & Hpre).
    rewrite length_app in Hlen, Hpre. cbn [length] in Hlen, Hpre.
    exists out. split; [exact Hrun|]. split; [|split; [|split]].
    + rewrite Hfil, filter_app. unfold padded. rewrite filter_pad_lines.
      cbn [filter]. rewrite rendered_nonblank. cbn [map].
      now rewrite <- app_assoc.
    + cbn [length]. lia.
    + constructor; [lia|exact Hall].
    + assert (Hfirst : firstn (length acc) (firstn (length padded + 1) out)
                       = firstn (length acc) out)
        by (rewrite firstn_firstn; f_equal; lia).
      rewrite <- Hfirst, Hpre.
      rewrite firstn_app. replace (length acc - length padded)%nat with 0%nat by lia.
      cbn [firstn]. rewrite app_nil_r. unfold padded, pad_lines.
      rewrite firstn_app, Nat.sub_diag, firstn_all. cbn [firstn].
      now rewrite app_nil_r.
Qed.

(** X9. When every yielded value is a string or bytes, whatever lines
    they are on, [parse_file] succeeds and the entries of its result that
    are not empty are exactly the lines rendered for the yielded values, in
    ascending order of line number: everything else is padding. *)
Theorem parse_file_rendered_lines `{SafeLoader} `{Formatter} (file : NamedIO)
    (items : list YAMLValue) :
  YAMLFileParser_iter (read file) = Ok items ->
  Forall (fun i => is_text (value i) = true) items ->
  exists out,
    parse_file file = Ok out
    /\ filter nonblank out = map rendered (sorted items).
Proof.
  intros Hiter Htext.
  rewrite (parse_file_ok file items Hiter).
  destruct (reconstruct_text (sorted items) [])
    as (out & Hrun & Hfil & _).
  - eapply Permutation_Forall; [apply sorted_perm|exact Htext].
  - exists out. split; [exact Hrun|exact Hfil].
Qed.

Lemma parse_file_rendered_lines_witness :
  @YAMLFileParser_iter (loads doc_flow (Ok data_flow))
    (read (mkNamedIO "flow.yaml" doc_flow))
    = Ok [ mkYAMLValue (PyStr "a") (PyStr "x") 1 doc_flow;
           mkYAMLValue (PyStr "b") (PyStr "y") 1 doc_flow ]
  /\ exists out,
       @parse_file (loads doc_flow (Ok data_flow)) strings_only
         (mkNamedIO "flow.yaml" doc_flow) = Ok out
       /\ filter nonblank out
          = [ "a: " ++ quote ++ "x" ++ quote; "b: " ++ quote ++ "y" ++ quote ].
Proof.
  split; [reflexivity|].
  apply (@parse_file_rendered_lines (loads doc_flow (Ok data_flow)) strings_only
           (mkNamedIO "flow.yaml" doc_flow)
           [ mkYAMLValue (PyStr "a") (PyStr "x") 1 doc_flow;
             mkYAMLValue (PyStr "b") (PyStr "y") 1 doc_flow ]).
  - reflexivity.
  - repeat constructor.
Defined.

(** X10. When every yielded value is a string or bytes, the result of
    [parse_file] has at least one entry per yielded value and reaches at
    least the line number of each of them. *)
Theorem parse_file_length `{SafeLoader} `{Formatter} (file : NamedIO)
    (items : list YAMLValue) :
  YAMLFileParser_iter (read file) = Ok items ->
  Forall (fun i => is_text (value i) = true) items ->
  exists out,
    parse_file file = Ok out
    /\ (length items <= length out)%nat
    /\ Forall (fun i => line_number i <= Z.of_nat (length out)) items.
Proof.
  intros Hiter Htext.
  rewrite (parse_file_ok file items Hiter).
  pose proof (sorted_perm items) as Hperm.
  destruct (reconstruct_text (sorted items) [])
    as (out & Hrun & _ & Hlen & Hall & _).
  - eapply Permutation_Forall; [exact Hperm|exact Htext].
  - exists out. split; [exact Hrun|].
    rewrite <- (Permutation_length Hperm) in Hlen. cbn [length] in Hlen.
    split; [lia|].
    eapply Permutation_Forall; [apply Permutation_sym; exact Hperm|exact Hall].
Qed.

Lemma parse_file_length_witness :
  @YAMLFileParser_iter (loads doc_flow (Ok data_flow))
    (read (mkNamedIO "flow.yaml" doc_flow))
    = Ok [ mkYAMLValue (PyStr "a") (PyStr "x") 1 doc_flow;
           mkYAMLValue (PyStr "b") (PyStr "y") 1 doc_flow ]
  /\ exists out,
       @parse_file (loads doc_flow (Ok data_flow)) strings_only
         (mkNamedIO "flow.yaml" doc_flow) = Ok out
       /\ (2 <= length out)%nat
       /\ Forall (fun i => line_number i <= Z.of_nat (length out))
            [ mkYAMLValue (PyStr "a") (PyStr "x") 1 doc_flow;
              mkYAMLValue (PyStr "b") (PyStr "y") 1 doc_flow ].
Proof.
  split; [reflexivity|].
  apply (@parse_file_length (loads doc_flow (Ok data_flow)) strings_only
           (mkNamedIO "flow.yaml" doc_flow)
           [ mkYAMLValue (PyStr "a") (PyStr "x") 1 doc_flow;
             mkYAMLValue (PyStr "b") (PyStr "y") 1 doc_flow ]).
  - reflexivity.
  - repeat constructor.
Defined.

Lemma render_raises `{Formatter} (item : YAMLValue) (e : exn) :
  render item = Raise e -> e = AttributeError \/ e = TypeError.
Proof.
  unfold render.
  destruct (value item); cbv beta iota zeta; try discriminate;
    intros H0; injection H0 as <-; auto.
Qed.

Lemma reconstruct_raises `{Formatter} :
  forall (items : list YAMLValue) (acc : list string) (e : exn),
    reconstruct items acc = Raise e -> e = AttributeError \/ e = TypeError.
Proof.
  induction items as [|item items IH]; intros acc e; [discriminate|].
  cbn [reconstruct].
  destruct (render item) as [text|e'] eqn:Hr; cbn [bind].
  - apply IH.
  - intros H0; injection H0 as <-. eapply render_raises; eauto.
Qed.

(** X11. [parse_file] never lets [yaml.YAMLError] through, whatever the
    loader does: the exception is caught and replaced, and nothing after
    the traversal raises it. *)
Theorem parse_file_never_YAMLError `{SafeLoader} `{Formatter} (file : NamedIO) :
  parse_file file <> Raise YAMLError.
Proof.
  unfold parse_file.
  destruct (YAMLFileParser_iter (read file)) as [items|e].
  - intros Hr. apply reconstruct_raises in Hr as [Hr|Hr]; discriminate.
  - destruct e; discriminate.
Qed.

Lemma render_not_text `{Formatter} (item : YAMLValue) :
  is_text (value item) = false ->
  render item = Raise AttributeError \/ render item = Raise TypeError.
Proof.
  unfold render. destruct (value item); cbv beta iota zeta;
    try discriminate; auto.
Qed.

Lemma reconstruct_not_text `{Formatter} :
  forall (items : list YAMLValue) (acc : list string),
    Exists (fun i => is_text (value i) = false) items ->
    reconstruct items acc = Raise AttributeError
    \/ reconstruct items acc = Raise TypeError.
Proof.
  induction items as [|item items IH]; intros acc Hex;
    [inversion Hex|].
  cbn [reconstruct].
  destruct (is_text (value item)) eqn:Ht.
  - rewrite (render_text item Ht). cbn [bind]. apply IH.
    inversion Hex as [? ? Hbad|? ? Hrest]; subst; [congruence|exact Hrest].
  - destruct (render_not_text item Ht) as [-> | ->]; auto.
Qed.

(** X12. When one of the yielded values is neither a string nor bytes (a
    document with [__value__] entries of its own), [parse_file] returns no
    list: it ends with [AttributeError], or with [TypeError] for a date. *)
Theorem parse_file_value_not_text `{SafeLoader} `{Formatter} (file : NamedIO)
    (items : list YAMLValue) :
  YAMLFileParser_iter (read file) = Ok items ->
  Exists (fun i => is_text (value i) = false) items ->
  parse_file file = Raise AttributeError \/ parse_file file = Raise TypeError.
Proof.
  intros Hiter Hex.
  rewrite (parse_file_ok file items Hiter).
  apply reconstruct_not_text.
  eapply Permutation_Exists; [apply sorted_perm|exact Hex].
Qed.

Lemma parse_file_value_not_text_witness :
  @YAMLFileParser_iter (loads doc_four_fields (Ok data_four_fields))
    (read (mkNamedIO "four.yaml" doc_four_fields))
    = Ok [ mkYAMLValue (PyInt 1) (PyInt 2) 1 "__original_key__: 1" ]
  /\ (@parse_file (loads doc_four_fields (Ok data_four_fields)) strings_only
        (mkNamedIO "four.yaml" doc_four_fields) = Raise AttributeError
      \/ @parse_file (loads doc_four_fields (Ok data_four_fields)) strings_only
           (mkNamedIO "four.yaml" doc_four_fields) = Raise TypeError).
Proof.
  split; [reflexivity|].
  apply (@parse_file_value_not_text (loads doc_four_fields (Ok data_four_fields))
           strings_only (mkNamedIO "four.yaml" doc_four_fields)
           [ mkYAMLValue (PyInt 1) (PyInt 2) 1 "__original_key__: 1" ]).
  - reflexivity.
  - constructor. reflexivity.
Defined.

(** ** Escaping *)

Lemma escape_head (s : string) :
  forall t, escape s <> String Py.dquote t.
Proof.
  intros t. destruct s as [|c s]; [discriminate|].
  rewrite escape_cons. destruct (Ascii.eqb c Py.dquote) eqn:Hc.
  - discriminate.
  - intros H0. injection H0 as -> _. discriminate.
Qed.

(** X13. Escaping loses nothing: two values with the same escaped text
    are the same value. *)
Theorem escape_injective (s1 s2 : string) :
  escape s1 = escape s2 -> s1 = s2.
Proof.
  revert s2. induction s1 as [|c1 s1 IH]; intros s2 Heq.
  - destruct s2 as [|c2 s2]; [reflexivity|].
    rewrite escape_cons in Heq.
    destruct (Ascii.eqb c2 Py.dquote); discriminate.
  - destruct s2 as [|c2 s2].
    + rewrite escape_cons in Heq.
      destruct (Ascii.eqb c1 Py.dquote); discriminate.
    + rewrite !escape_cons in Heq.
      destruct (Ascii.eqb c1 Py.dquote) eqn:H1;
        destruct (Ascii.eqb c2 Py.dquote) eqn:H2.
      * apply Ascii.eqb_eq in H1, H2. subst.
        injection Heq as Heq. now rewrite (IH s2 Heq).
      * injection Heq as <- Heq. symmetry in Heq.
        now apply escape_head in Heq.
      * injection Heq as -> Heq. now apply escape_head in Heq.
      * injection Heq as <- Heq. now rewrite (IH s2 Heq).
Qed.

Lemma escape_injective_witness :
  escape ("say " ++ quote ++ "hi" ++ quote)
    = escape ("say " ++ quote ++ "hi" ++ quote)
  /\ "say " ++ quote ++ "hi" ++ quote = "say " ++ quote ++ "hi" ++ quote.
Proof.
  split; [reflexivity|].
  apply (escape_injective ("say " ++ quote ++ "hi" ++ quote)
           ("say " ++ quote ++ "hi" ++ quote)).
  reflexivity.
Defined.

(** ** The comment of a line *)

Lemma all_chars_app (p : ascii -> bool) (a b : string) :
  all_chars p (a ++ b) = all_chars p a && all_chars p b.
Proof.
  induction a as [|c a IH]; [reflexivity|].
  cbn [append all_chars]. rewrite IH. now rewrite andb_assoc.
Qed.

(** X14. On a line whose only whitespace characters are spaces, the
    comment taken from it runs to the end of the stripped line. *)
Theorem comment_of_suffix (source_line : string) :
  all_chars comment_char (Py.strip source_line) = true ->
  exists pre, Py.strip source_line = pre ++ comment_of source_line.
Proof.
  intros Hall. unfold comment_of. rewrite search_comment.
  destruct (first_comment (Py.strip source_line)) as [c|] eqn:Hc.
  - destruct (first_comment_extent _ _ Hc) as (pre & post & Hs & Hpost).
    destruct Hpost as [-> | (h & t & -> & Hh)].
    + exists pre. rewrite Hs at 1. f_equal.
      clear. induction c as [|x c IH]; [reflexivity|].
      cbn [append]. now rewrite IH.
    + rewrite Hs, !all_chars_app in Hall. cbn [all_chars] in Hall.
      rewrite Hh in Hall. cbn [andb] in Hall.
      rewrite !andb_false_r in Hall. discriminate.
  - exists (Py.strip source_line).
    clear. induction (Py.strip source_line) as [|x s IH]; [reflexivity|].
    cbn [append]. now rewrite <- IH.
Qed.

Lemma comment_of_suffix_witness :
  all_chars comment_char (Py.strip line_secret) = true
  /\ comment_of line_secret = " # secret here"
  /\ exists pre, Py.strip line_secret = pre ++ comment_of line_secret.
Proof.
  split; [reflexivity|]. split; [reflexivity|].
  apply (comment_of_suffix line_secret). reflexivity.
Defined.

Lemma has_marker_cons (c h : ascii) (t : string) :
  has_marker (String c (String h t))
  = (Py.isspace c && Ascii.eqb Py.hash h) || has_marker (String h t).
Proof. reflexivity. Qed.

Lemma run_has_marker (s : string) :
  forall c t,
    Py.isspace c = true ->
    drop_while Py.isspace (String c s) = String Py.hash t ->
    has_marker (String c s) = true.
Proof.
  induction s as [|c2 s IH]; intros c t Hc Hd.
  - cbn [drop_while] in Hd. rewrite Hc in Hd. discriminate.
  - cbn [drop_while] in Hd. rewrite Hc in Hd.
    rewrite has_marker_cons, Hc. cbn [andb].
    destruct (Py.isspace c2) eqn:Hc2.
    + rewrite (IH c2 t Hc2); [apply orb_true_r|].
      cbn [drop_while]. now rewrite Hc2.
    + injection Hd as -> _. reflexivity.
Qed.

Lemma comment_here_marker (s c : string) :
  comment_here s = Some c -> has_marker s = true /\ c <> EmptyString.
Proof.
  unfold comment_here. destruct s as [|x s]; [discriminate|].
  destruct (Py.isspace x) eqn:Hx; [|discriminate].
  destruct (drop_while Py.isspace (String x s)) as [|h t] eqn:Hd; [discriminate|].
  destruct (Ascii.eqb Py.hash h) eqn:Hh; [|discriminate].
  apply Ascii.eqb_eq in Hh. subst h.
  intros H0. injection H0 as <-. split.
  - eapply run_has_marker; eauto.
  - cbn [take_while]. rewrite Hx. discriminate.
Qed.

Lemma first_comment_marker (s : string) :
  match first_comment s with
  | Some c => has_marker s = true /\ c <> EmptyString
  | None => has_marker s = false
  end.
Proof.
  induction s as [|x s IH]; [reflexivity|].
  rewrite first_comment_unfold.
  destruct (comment_here (String x s)) as [c|] eqn:Hc.
  - eapply comment_here_marker; eauto.
  - destruct (first_comment s) as [c|].
    + destruct IH as [Hm Hne]. split; [|exact Hne].
      destruct s as [|h t]; [discriminate|].
      rewrite has_marker_cons, Hm. apply orb_true_r.
    + destruct s as [|h t]; [reflexivity|].
      rewrite has_marker_cons, IH, orb_false_r.
      destruct (Py.isspace x) eqn:Hx; [|reflexivity].
      destruct (Ascii.eqb Py.hash h) eqn:Hh; [|reflexivity].
      exfalso. unfold comment_here in Hc. rewrite Hx in Hc.
      cbn [drop_while] in Hc. rewrite Hx in Hc.
      rewrite (hash_not_space h Hh) in Hc. rewrite Hh in Hc. discriminate.
Qed.

(** X15. A line gets a comment exactly when, once stripped, it holds a
    [#] that directly follows a whitespace character: a [#] at the very
    start of the line or after any other character starts no comment. *)
Theorem comment_of_empty_iff (source_line : string) :
  comment_of source_line = EmptyString
  <-> has_marker (Py.strip source_line) = false.
Proof.
  unfold comment_of. rewrite search_comment.
  pose proof (first_comment_marker (Py.strip source_line)) as Hm.
  destruct (first_comment (Py.strip source_line)) as [c|].
  - destruct Hm as [Hm Hne]. split; [intros; contradiction|congruence].
  - split; auto.
Qed.

(** ** [_check_next_tokens_shim] *)

Lemma skipn_nth_error {A : Type} (l : list A) :
  forall i a, nth_error l i = Some a -> skipn i l = a :: skipn (S i) l.
Proof.
  induction l as [|x l IH]; intros [|i] a Hn; try discriminate.
  - injection Hn as ->. reflexivity.
  - cbn [nth_error] in Hn. cbn [skipn]. rewrite (IH i a Hn). reflexivity.
Qed.

Lemma check_choices_pairwise (toks : list Token) (choices : list TokenClass) :
  forall (i : nat) (r : bool),
    check_choices toks choices i r = r && pairwise_match (skipn i toks) choices.
Proof.
  unfold pairwise_match.
  induction choices as [|choice choices IH]; intros i r.
  - cbn [check_choices]. destruct (skipn i toks); cbn [combine forallb];
      now rewrite andb_true_r.
  - cbn [check_choices].
    destruct (i <? length toks)%nat eqn:Hi.
    + apply Nat.ltb_lt in Hi.
      destruct (nth_error toks i) as [t|] eqn:Hn.
      * rewrite IH, (skipn_nth_error toks i t Hn).
        cbn [combine forallb fst snd]. now rewrite andb_assoc.
      * apply nth_error_None in Hn. lia.
    + apply Nat.ltb_ge in Hi.
      rewrite IH, skipn_all2 by exact Hi. reflexivity.
Qed.

(** X16. [_check_next_tokens_shim] compares the queued tokens with the
    choices position by position, for as many positions as both have: it
    is false on an empty queue, and choices beyond the end of the queue are
    not checked, so a queue shorter than the choices passes when the tokens
    it holds match. *)
Theorem check_next_tokens_pairwise {I : Type} (self : YAMLFileParser I)
    (choices : list TokenClass) :
  _check_next_tokens_shim self choices
  = match tokens (loader self) with
    | [] => false
    | _ => pairwise_match (tokens (loader self)) choices
    end.
Proof.
  unfold _check_next_tokens_shim.
  destruct (tokens (loader self)) as [|t toks] eqn:Ht; [reflexivity|].
  destruct choices as [|choice choices]; [reflexivity|].
  rewrite check_choices_pairwise. reflexivity.
Qed.

(** ** [_tag_dict_values] once more *)

Lemma tag_pairs_kept (t : string) (pairs : list (Node * Node)) :
  Forall (fun kv => is_str_or_binary (snd kv) = false) pairs ->
  tag_pairs t pairs = Ok pairs.
Proof.
  induction 1 as [|[k v] pairs Hkv Hrest IH]; [reflexivity|].
  cbn [snd] in Hkv. cbn [tag_pairs]. rewrite Hkv. cbn [negb bind].
  rewrite IH. reflexivity.
Qed.

Lemma tag_pairs_tags (t : string) :
  str_or_binary_tag t = false ->
  forall pairs pairs',
    tag_pairs t pairs = Ok pairs' ->
    Forall (fun kv => is_str_or_binary (snd kv) = false) pairs'.
Proof.
  intros Ht. induction pairs as [|[k v] pairs IH]; intros pairs' Hrun.
  - injection Hrun as <-. constructor.
  - cbn [tag_pairs] in Hrun.
    destruct (is_str_or_binary v) eqn:Hv; cbn [negb] in Hrun.
    + unfold augmented_string in Hrun.
      destruct (__line__ v) as [n|]; [|discriminate].
      cbn [bind] in Hrun.
      destruct (tag_pairs t pairs) as [new_values|]; [|discriminate].
      cbn [bind] in Hrun. injection Hrun as <-.
      constructor; [exact Ht|now apply IH].
    + cbn [bind] in Hrun.
      destruct (tag_pairs t pairs) as [new_values|]; [|discriminate].
      cbn [bind] in Hrun. injection Hrun as <-.
      constructor; [exact Hv|now apply IH].
Qed.

(** X17. Unless the mapping itself carries a string or binary tag, no
    value of the mapping [_tag_dict_values] returns carries one, and giving
    the result to [_tag_dict_values] again changes nothing: a mapping that
    has been rewritten is not rewritten a second time. *)
Theorem tag_dict_values_idempotent (map_node output : Node) :
  str_or_binary_tag (tag map_node) = false ->
  _tag_dict_values map_node = Ok output ->
  (exists pairs,
     node_value output = VMap pairs
     /\ Forall (fun kv => is_str_or_binary (snd kv) = false) pairs)
  /\ _tag_dict_values output = Ok output.
Proof.
  intros Ht Hrun. unfold _tag_dict_values in Hrun.
  destruct (iter_pairs (node_value map_node)) as [pairs|]; [|discriminate].
  cbn [bind] in Hrun.
  destruct (tag_pairs (tag map_node) pairs) as [new_values|] eqn:Hp;
    [|discriminate].
  cbn [bind] in Hrun.
  destruct (get_flow_style map_node) as [style|]; cbn [bind] in Hrun;
    [|discriminate].
  injection Hrun as <-.
  pose proof (tag_pairs_tags _ Ht _ _ Hp) as Hkept.
  split; [exists new_values; split; [reflexivity|exact Hkept]|].
  unfold _tag_dict_values. cbn [node_value iter_pairs bind tag].
  rewrite (tag_pairs_kept _ _ Hkept). reflexivity.
Qed.

Lemma tag_dict_values_idempotent_witness :
  str_or_binary_tag (tag mapping_plain) = false
  /\ _tag_dict_values mapping_plain
     = Ok (mkNode MappingNode map_tag
             (VMap [ (scalar str_tag "a" (Some 1),
                      new_MappingNode map_tag
                        (three_fields (scalar str_tag "a" (Some 1))
                           (scalar str_tag "b" (Some 1)) 1));
                     (scalar str_tag "c" (Some 2), scalar int_tag "1" (Some 2)) ])
             None None (Some false) None)
  /\ (exists pairs,
        node_value
          (mkNode MappingNode map_tag
             (VMap [ (scalar str_tag "a" (Some 1),
                      new_MappingNode map_tag
                        (three_fields (scalar str_tag "a" (Some 1))
                           (scalar str_tag "b" (Some 1)) 1));
                     (scalar str_tag "c" (Some 2), scalar int_tag "1" (Some 2)) ])
             None None (Some false) None) = VMap pairs
        /\ Forall (fun kv => is_str_or_binary (snd kv) = false) pairs)
     /\ _tag_dict_values
          (mkNode MappingNode map_tag
             (VMap [ (scalar str_tag "a" (Some 1),
                      new_MappingNode map_tag
                        (three_fields (scalar str_tag "a" (Some 1))
                           (scalar str_tag "b" (Some 1)) 1));
                     (scalar str_tag "c" (Some 2), scalar int_tag "1" (Some 2)) ])
             None None (Some false) None)
        = Ok (mkNode MappingNode map_tag
                (VMap [ (scalar str_tag "a" (Some 1),
                         new_MappingNode map_tag
                           (three_fields (scalar str_tag "a" (Some 1))
                              (scalar str_tag "b" (Some 1)) 1));
                        (scalar str_tag "c" (Some 2), scalar int_tag "1" (Some 2)) ])
                None None (Some false) None).
Proof.
  split; [reflexivity|]. split; [reflexivity|].
  apply (tag_dict_values_idempotent mapping_plain); reflexivity.
Defined.

Lemma tag_pairs_unstamped (t : string) (pairs : list (Node * Node)) :
  existsb unstamped pairs = true ->
  tag_pairs t pairs = Raise AttributeError.
Proof.
  induction pairs as [|[k v] pairs IH]; [discriminate|].
  cbn [existsb]. unfold unstamped at 1. cbn [snd]. intros Hex.
  cbn [tag_pairs]. unfold augmented_string.
  destruct (is_str_or_binary v) eqn:Hv; cbn [negb andb] in *.
  - destruct (__line__ v) as [n|]; [|reflexivity].
    cbn [orb bind] in *. rewrite (IH Hex). reflexivity.
  - cbn [orb bind] in *. rewrite (IH Hex). reflexivity.
Qed.

(** X18. A mapping that holds a value with a string or binary tag and no
    [__line__] attribute, a node that did not come through the compose
    shim, makes [_tag_dict_values] raise [AttributeError]: no mapping is
    returned. *)
Theorem tag_dict_values_unstamped (t : string) (pairs : list (Node * Node))
    (sm em : option Mark) (fs : option bool) (ln : option Z) :
  existsb unstamped pairs = true ->
  _tag_dict_values (mkNode MappingNode t (VMap pairs) sm em fs ln)
  = Raise AttributeError.
Proof.
  intros Hex. unfold _tag_dict_values. cbn [node_value iter_pairs bind tag].
  rewrite (tag_pairs_unstamped t pairs Hex). reflexivity.
Qed.

Lemma tag_dict_values_unstamped_witness :
  existsb unstamped
    [ (scalar str_tag "c" (Some 2), scalar int_tag "1" (Some 2));
      (scalar str_tag "a" (Some 1), scalar str_tag "b" None) ] = true
  /\ _tag_dict_values
       (mkNode MappingNode map_tag
          (VMap [ (scalar str_tag "c" (Some 2), scalar int_tag "1" (Some 2));
                  (scalar str_tag "a" (Some 1), scalar str_tag "b" None) ])
          None None (Some false) (Some 1))
     = Raise AttributeError.
Proof.
  split; [reflexivity|].
  apply (tag_dict_values_unstamped map_tag
           [ (scalar str_tag "c" (Some 2), scalar int_tag "1" (Some 2));
             (scalar str_tag "a" (Some 1), scalar str_tag "b" None) ]
           None None (Some false) (Some 1)).
  reflexivity.
Defined.

(** ** The shims once more *)

(** X19. When the node PyYAML composes carries a tag ending in [:map] and
    the shim returns, the flag is cleared whatever it was, nothing else of
    the parser state PyYAML left is touched, and the node returned is the
    mapping built by [_tag_dict_values]: it keeps the tag, the marks and
    the flow style, and it does not carry the [__line__] the shim has just
    set. *)
Theorem compose_node_shim_clears_flag {I E : Type} `{LoaderInternals I E}
    (self self' after : YAMLFileParser I) (parent index : option Node)
    (node output : Node) :
  Composer_compose_node parent index self = Ok (node, self') ->
  endswith (tag node) ":map" = true ->
  _compose_node_shim parent index self = Ok (output, after) ->
  after = set_is_inline_flow_mapping_key self' false
  /\ node_class output = MappingNode
  /\ tag output = tag node
  /\ start_mark output = start_mark node
  /\ end_mark output = end_mark node
  /\ flow_style output = flow_style node
  /\ __line__ output = None.
Proof.
  intros Hcomp Htag Hrun.
  destruct (stamp_line self) as [line|] eqn:Hline;
    [|unfold _compose_node_shim in Hrun; rewrite Hline in Hrun; discriminate].
  rewrite (compose_node_shim_mapping self self' parent index node line
             Hline Hcomp Htag) in Hrun.
  destruct (_tag_dict_values (set___line__ node (line + 1))) as [tagged|] eqn:Ht;
    cbn [bind] in Hrun; [|discriminate].
  injection Hrun as <- <-.
  unfold _tag_dict_values in Ht.
  cbn [set___line__ node_value tag start_mark end_mark flow_style] in Ht.
  destruct (iter_pairs (node_value node)) as [pairs|];
    cbn [bind] in Ht; [|discriminate].
  destruct (tag_pairs (tag node) pairs) as [new_values|];
    cbn [bind] in Ht; [|discriminate].
  unfold get_flow_style, set___line__ in Ht. cbn [node_class flow_style] in Ht.
  destruct (node_class node); cbn [bind] in Ht; try discriminate;
    injection Ht as <-; repeat split.
Qed.

Lemma compose_node_shim_clears_flag_witness :
  @Composer_compose_node unit unit (fixed_internals empty_mapping) None None
    (in_flow_mapping 2 [separator] true)
    = Ok (empty_mapping, in_flow_mapping 2 [separator] true)
  /\ endswith (tag empty_mapping) ":map" = true
  /\ @_compose_node_shim unit unit (fixed_internals empty_mapping) None None
       (in_flow_mapping 2 [separator] true)
     = Ok (empty_mapping, in_flow_mapping 2 [separator] false)
  /\ in_flow_mapping 2 [separator] false
     = set_is_inline_flow_mapping_key (in_flow_mapping 2 [separator] true) false
  /\ node_class empty_mapping = MappingNode
  /\ tag empty_mapping = tag empty_mapping
  /\ start_mark empty_mapping = start_mark empty_mapping
  /\ end_mark empty_mapping = end_mark empty_mapping
  /\ flow_style empty_mapping = flow_style empty_mapping
  /\ __line__ empty_mapping = None.
Proof.
  split; [reflexivity|]. split; [reflexivity|]. split; [reflexivity|].
  exact (@compose_node_shim_clears_flag unit unit (fixed_internals empty_mapping)
           (in_flow_mapping 2 [separator] true)
           (in_flow_mapping 2 [separator] true)
           (in_flow_mapping 2 [separator] false)
           None None empty_mapping empty_mapping
           eq_refl eq_refl eq_refl).
Defined.

(** X20. [_parse_flow_mapping_key_shim] decides the flag afresh: the value
    the flag had before the call has no effect on the result. *)
Theorem key_shim_ignores_old_flag {I E : Type} `{LoaderInternals I E}
    (first b : bool) (self : YAMLFileParser I) :
  _parse_flow_mapping_key_shim first (set_is_inline_flow_mapping_key self b)
  = _parse_flow_mapping_key_shim first self.
Proof.
  unfold _parse_flow_mapping_key_shim, is_inline_dictionary.
  destruct first; [|reflexivity].
  cbn [set_is_inline_flow_mapping_key loader].
  destruct (Py.getitem (marks (loader self)) (-1)) as [m|]; [|reflexivity].
  cbn [bind].
  destruct (peek_token (loader self)) as [[[t|] l']|]; try reflexivity.
  cbn [bind fst snd].
  destruct (mark_line m =? mark_line (token_start_mark t)); reflexivity.
Qed.

(** ** Where the rendered lines land *)

Lemma pad_lines_max (lines : list string) (n : Z) :
  length (pad_lines lines n) = Nat.max (length lines) (Z.to_nat n).
Proof.
  unfold pad_lines. rewrite length_app, repeat_length. lia.
Qed.

Lemma nth_error_prefix {A : Type} (l acc : list A) (n : nat) :
  firstn (length acc) l = acc ->
  (n < length acc)%nat ->
  nth_error l n = nth_error acc n.
Proof.
  revert l acc. induction n as [|n IH]; intros l acc Hpre Hn.
  - destruct acc as [|a acc]; [cbn [length] in Hn; lia|].
    destruct l as [|x l]; [discriminate|].
    cbn [length firstn] in Hpre. injection Hpre as -> _. reflexivity.
  - destruct acc as [|a acc]; [cbn [length] in Hn; lia|].
    destruct l as [|x l]; [discriminate|].
    cbn [length firstn nth_error] in *. injection Hpre as _ Hpre.
    apply (IH l acc Hpre). lia.
Qed.

Lemma reconstruct_positions `{Formatter} :
  forall (items : list YAMLValue) (acc out : list string),
    Forall (fun i => is_text (value i) = true) items ->
    reconstruct items acc = Ok out ->
    Forall2 (fun i p => nth_error out p = Some (rendered i))
      items (positions items (length acc)).
Proof.
  induction items as [|item items IH]; intros acc out Htext Hrun.
  - constructor.
  - inversion Htext as [|? ? Hv Htext']; subst.
    cbn [reconstruct] in Hrun. rewrite (render_text item Hv) in Hrun.
    cbn [bind] in Hrun. cbn [positions].
    set (padded := pad_lines acc (line_number item - 1)) in *.
    assert (Hp : length padded
                 = Nat.max (length acc) (Z.to_nat (line_number item - 1)))
      by apply pad_lines_max.
    rewrite <- Hp.
    pose proof (IH (padded ++ [rendered item])%list out Htext' Hrun) as Hrest.
    rewrite length_app in Hrest. cbn [length] in Hrest.
    rewrite Nat.add_1_r in Hrest.
    constructor; [|exact Hrest].
    destruct (reconstruct_text items (padded ++ [rendered item])%list Htext')
      as (out' & Hrun' & _ & _ & _ & Hpre).
    rewrite Hrun in Hrun'. injection Hrun' as <-.
    rewrite (nth_error_prefix out _ (length padded) Hpre)
      by (rewrite length_app; cbn [length]; lia).
    rewrite nth_error_app2, Nat.sub_diag by lia. reflexivity.
Qed.

(** X21. When every yielded value is a string or bytes, the rendered line
    of each value, taken in ascending order of line number, is the entry of
    the result at the index of its line, or at the index after the previous
    value's entry when that is greater: values that share a line, and the
    values after them, are pushed down. *)
Theorem parse_file_positions `{SafeLoader} `{Formatter} (file : NamedIO)
    (items : list YAMLValue) :
  YAMLFileParser_iter (read file) = Ok items ->
  Forall (fun i => is_text (value i) = true) items ->
  exists out,
    parse_file file = Ok out
    /\ Forall2 (fun i p => nth_error out p = Some (rendered i))
         (sorted items) (positions (sorted items) 0).
Proof.
  intros Hiter Htext.
  rewrite (parse_file_ok file items Hiter).
  assert (Htext' : Forall (fun i => is_text (value i) = true) (sorted items))
    by (eapply Permutation_Forall; [apply sorted_perm|exact Htext]).
  destruct (reconstruct_text (sorted items) [] Htext') as (out & Hrun & _).
  exists out. split; [exact Hrun|].
  exact (reconstruct_positions (sorted items) [] out Htext' Hrun).
Qed.

Lemma parse_file_positions_witness :
  @YAMLFileParser_iter (loads doc_flow (Ok data_flow))
    (read (mkNamedIO "flow.yaml" doc_flow))
    = Ok [ mkYAMLValue (PyStr "a") (PyStr "x") 1 doc_flow;
           mkYAMLValue (PyStr "b") (PyStr "y") 1 doc_flow ]
  /\ positions [ mkYAMLValue (PyStr "a") (PyStr "x") 1 doc_flow;
                 mkYAMLValue (PyStr "b") (PyStr "y") 1 doc_flow ] 0
     = [ 0%nat; 1%nat ]
  /\ exists out,
       @parse_file (loads doc_flow (Ok data_flow)) strings_only
         (mkNamedIO "flow.yaml" doc_flow) = Ok out
       /\ Forall2 (fun i p => nth_error out p = Some (@rendered strings_only i))
            (sorted [ mkYAMLValue (PyStr "a") (PyStr "x") 1 doc_flow;
                      mkYAMLValue (PyStr "b") (PyStr "y") 1 doc_flow ])
            (positions
               (sorted [ mkYAMLValue (PyStr "a") (PyStr "x") 1 doc_flow;
                         mkYAMLValue (PyStr "b") (PyStr "y") 1 doc_flow ]) 0).
Proof.
  split; [reflexivity|]. split; [reflexivity|].
  apply (@parse_file_positions (loads doc_flow (Ok data_flow)) strings_only
           (mkNamedIO "flow.yaml" doc_flow)
           [ mkYAMLValue (PyStr "a") (PyStr "x") 1 doc_flow;
             mkYAMLValue (PyStr "b") (PyStr "y") 1 doc_flow ]).
  - reflexivity.
  - repeat constructor.
Defined.

(* ================================================================== *)
(** * The rendered line, from the document down to its characters *)

Lemma flatten_nest (lines : list string) (path : list string) (inner : PyValue) :
  Forall (fun p => String.eqb p "__line__" = false) path ->
  flatten lines [nest path inner] = flatten lines [inner].
Proof.
  induction 1 as [|p path Hp Hpath IH]; [reflexivity|].
  cbn [nest fold_right]. rewrite flatten_cons. unfold visit.
  cbn [truthy negb py_in existsb fst eq_str]. rewrite Hp.
  cbn [orb isinstance_str extend_items map snd app]. exact IH.
Qed.

Lemma escape_empty (s : string) : escape s = EmptyString -> s = EmptyString.
Proof.
  destruct s as [|c s]; [reflexivity|]. rewrite escape_cons.
  destruct (Ascii.eqb c Py.dquote); discriminate.
Qed.

Lemma unescape_cons (c d : ascii) (s : string) :
  unescape (String c (String d s))
  = if Ascii.eqb c Py.backslash && Ascii.eqb d Py.dquote
    then String d (unescape s)
    else String c (unescape (String d s)).
Proof. reflexivity. Qed.

Lemma unescape_escape (s : string) : unescape (escape s) = s.
Proof.
  induction s as [|c s IH]; [reflexivity|].
  rewrite escape_cons. destruct (Ascii.eqb c Py.dquote) eqn:Hc.
  - apply Ascii.eqb_eq in Hc. subst c.
    change (escaped_quote ++ escape s)
      with (String Py.backslash (String Py.dquote (escape s))).
    rewrite unescape_cons. cbn [Ascii.eqb andb]. 
    change (Ascii.eqb Py.backslash Py.backslash && Ascii.eqb Py.dquote Py.dquote)
      with true. cbv iota. now rewrite IH.
  - destruct (escape s) as [|d t] eqn:He.
    + apply escape_empty in He. subst s. reflexivity.
    + rewrite unescape_cons.
      destruct (Ascii.eqb c Py.backslash && Ascii.eqb d Py.dquote) eqn:Hb.
      * apply andb_true_iff in Hb as [_ Hd]. apply Ascii.eqb_eq in Hd. subst d.
        now apply escape_head in He.
      * now rewrite IH.
Qed.

Lemma escape_length (s : string) :
  String.length (escape s) = (String.length s + count_quotes s)%nat.
Proof.
  induction s as [|c s IH]; [reflexivity|].
  rewrite escape_cons. cbn [count_quotes String.length].
  destruct (Ascii.eqb c Py.dquote).
  - change (escaped_quote ++ escape s)
      with (String Py.backslash (String Py.dquote (escape s))).
    cbn [String.length]. lia.
  - cbn [String.length]. lia.
Qed.

(** C6. A string value recorded under the key [k], at whatever depth of
    mappings, is rendered as [k], a colon and a space, the escaped value
    between double quotes, and the comment of its source line, and this is
    the entry of the result at the index of its line; bytes are rendered
    likewise from their base64 text. Escaping puts a backslash before every
    double quote and changes nothing else: every double quote of the
    escaped text follows a backslash, dropping these backslashes gives the
    value back, and the text grows by one character for each double
    quote. *)
Theorem render_format `{SafeLoader} `{Formatter} (file : NamedIO)
    (path : list string) (k s : string) (n : Z) :
  get_single_data (read file) = Ok (nest path (annotated k (PyStr s) n)) ->
  Forall (fun p => String.eqb p "__line__" = false) path ->
  1 <= n <= Z.of_nat (length (Py.splitlines (read file))) ->
  (forall m source_line,
     render (mkYAMLValue (PyStr k) (PyStr s) m source_line)
     = Ok (k ++ ": " ++ quote ++ escape s ++ quote ++ comment_of source_line))
  /\ (forall b m source_line,
        render (mkYAMLValue (PyStr k) (PyBytes b) m source_line)
        = Ok (k ++ ": " ++ quote ++ escape (Base64.b64encode b) ++ quote
                ++ comment_of source_line))
  /\ (exists out source_line,
        nth_error (Py.splitlines (read file)) (Z.to_nat (n - 1))
          = Some source_line
        /\ parse_file file = Ok out
        /\ nth_error out (Z.to_nat (n - 1))
           = Some (k ++ ": " ++ quote ++ escape s ++ quote
                     ++ comment_of source_line)
        /\ String.prefix (k ++ ": ")
             (k ++ ": " ++ quote ++ escape s ++ quote ++ comment_of source_line)
           = true)
  /\ unescape (escape s) = s
  /\ (forall i, String.get i (escape s) = Some Py.dquote ->
        exists j, i = S j /\ String.get j (escape s) = Some Py.backslash)
  /\ String.length (escape s) = (String.length s + count_quotes s)%nat.
Proof.
  intros Hload Hpath Hn.
  split; [reflexivity|]. split; [reflexivity|].
  split; [|split; [apply unescape_escape|
                   split; [apply escape_quotes_escaped|apply escape_length]]].
  set (lines := Py.splitlines (read file)) in *.
  set (source_line := nth (Z.to_nat (n - 1)) lines EmptyString).
  set (item := mkYAMLValue (PyStr k) (PyStr s) n source_line).
  assert (Hiter : YAMLFileParser_iter (read file) = Ok [item]).
  { unfold YAMLFileParser_iter. rewrite Hload. cbn [bind]. fold lines.
    rewrite (flatten_nest lines path _ Hpath), flatten_cons.
    pose proof (visit_annotated lines (k, PyStr s, n) Hn) as Hv.
    cbn [fst snd] in Hv. rewrite Hv, flatten_nil. reflexivity. }
  exists (pad_lines [] (n - 1) ++ [rendered item])%list, source_line.
  split; [apply nth_error_nth'; lia|].
  split.
  - rewrite (parse_file_ok file [item] Hiter).
    change (sorted [item]) with [item]. cbn [reconstruct].
    rewrite (render_text item eq_refl). reflexivity.
  - split; [|apply (prefix_append_mid k ": ")].
    pose proof (pad_lines_length [] (n - 1)) as Hlen. cbn [length] in Hlen.
    rewrite nth_error_app2 by lia.
    replace (Z.to_nat (n - 1) - length (pad_lines [] (n - 1)))%nat
      with 0%nat by lia.
    reflexivity.
Qed.

Lemma render_format_witness :
  @get_single_data (loads doc_deep (Ok data_deep))
    (read (mkNamedIO "deep.yaml" doc_deep))
    = Ok (nest ["db"; "auth"]
            (annotated "password" (PyStr ("say " ++ quote ++ "hi" ++ quote)) 3))
  /\ Forall (fun p => String.eqb p "__line__" = false) ["db"; "auth"]
  /\ 1 <= 3 <= Z.of_nat (length (Py.splitlines
                                   (read (mkNamedIO "deep.yaml" doc_deep))))
  /\ @parse_file (loads doc_deep (Ok data_deep)) strings_only
       (mkNamedIO "deep.yaml" doc_deep)
     = Ok [ EmptyString; EmptyString;
            "password: " ++ quote ++ "say " ++ escaped_quote ++ "hi"
              ++ escaped_quote ++ quote ++ " # note" ]
  /\ exists out source_line,
       nth_error (Py.splitlines (read (mkNamedIO "deep.yaml" doc_deep)))
         (Z.to_nat (3 - 1)) = Some source_line
       /\ @parse_file (loads doc_deep (Ok data_deep)) strings_only
            (mkNamedIO "deep.yaml" doc_deep) = Ok out
       /\ nth_error out (Z.to_nat (3 - 1))
          = Some ("password" ++ ": " ++ quote
                    ++ escape ("say " ++ quote ++ "hi" ++ quote) ++ quote
                    ++ comment_of source_line)
       /\ String.prefix ("password" ++ ": ")
            ("password" ++ ": " ++ quote
               ++ escape ("say " ++ quote ++ "hi" ++ quote) ++ quote
               ++ comment_of source_line) = true.
Proof.
  assert (H1 : Forall (fun p => String.eqb p "__line__" = false) ["db"; "auth"])
    by (repeat constructor).
  assert (H2 : 1 <= 3 <= Z.of_nat (length (Py.splitlines
                              (read (mkNamedIO "deep.yaml" doc_deep)))))
    by (vm_compute; split; discriminate).
  split; [reflexivity|]. split; [exact H1|]. split; [exact H2|].
  split; [reflexivity|].
  exact (proj1 (proj2 (proj2
           (@render_format (loads doc_deep (Ok data_deep)) strings_only
              (mkNamedIO "deep.yaml" doc_deep) ["db"; "auth"] "password"
              ("say " ++ quote ++ "hi" ++ quote) 3 eq_refl H1 H2)))).
Defined.

(** ** Base64 *)

Lemma b64_value_digit (n : N) :
  (n < 64)%N ->
  b64_value (Base64.digit n) = Some n /\ is_pad (Base64.digit n) = false.
Proof.
  intros Hn.
  assert (Hi : (N.to_nat n < 64)%nat) by lia.
  rewrite <- (N2Nat.id n). revert Hi. generalize (N.to_nat n). clear.
  intros i Hi.
  unfold Base64.digit. rewrite Nat2N.id.
  do 64 (destruct i as [|i]; [split; reflexivity|]). lia.
Qed.

Lemma b64_arith (x y z : N) :
  (x < 256 -> y < 256 -> z < 256 ->
   x / 4 < 64 /\ x mod 4 * 16 + y / 16 < 64 /\ y mod 16 * 4 + z / 64 < 64
   /\ z mod 64 < 64
   /\ x / 4 * 4 + (x mod 4 * 16 + y / 16) / 16 = x
   /\ (x mod 4 * 16 + y / 16) mod 16 * 16 + (y mod 16 * 4 + z / 64) / 4 = y
   /\ (y mod 16 * 4 + z / 64) mod 4 * 64 + z mod 64 = z)%N.
Proof.
  intros Hx Hy Hz.
  repeat split; zify; Z.to_euclidean_division_equations; lia.
Qed.

Lemma b64_arith_one (x : N) :
  (x < 256 ->
   x / 4 < 64 /\ x mod 4 * 16 < 64 /\ (x mod 4 * 16) mod 16 = 0
   /\ x / 4 * 4 + (x mod 4 * 16) / 16 = x)%N.
Proof.
  intros Hx. repeat split; zify; Z.to_euclidean_division_equations; lia.
Qed.

Lemma b64_arith_two (x y : N) :
  (x < 256 -> y < 256 ->
   x / 4 < 64 /\ x mod 4 * 16 + y / 16 < 64 /\ y mod 16 * 4 < 64
   /\ (y mod 16 * 4) mod 4 = 0
   /\ x / 4 * 4 + (x mod 4 * 16 + y / 16) / 16 = x
   /\ (x mod 4 * 16 + y / 16) mod 16 * 16 + (y mod 16 * 4) / 4 = y)%N.
Proof.
  intros Hx Hy. repeat split; zify; Z.to_euclidean_division_equations; lia.
Qed.

Lemma byte_bound (a : byte) : (Byte.to_N a < 256)%N.
Proof. pose proof (Byte.to_N_bounded a). lia. Qed.

Lemma b64decode_quad (c1 c2 c3 c4 : ascii) (rest : string) :
  b64decode (String c1 (String c2 (String c3 (String c4 rest))))
  = match b64_value c1, b64_value c2 with
    | Some v1, Some v2 =>
        if is_pad c3 then
          if is_pad c4 && String.eqb rest EmptyString && (v2 mod 16 =? 0)%N
          then option_map (fun x => [x]) (Byte.of_N (v1 * 4 + v2 / 16))
          else None
        else
          match b64_value c3 with
          | Some v3 =>
              if is_pad c4 then
                if String.eqb rest EmptyString && (v3 mod 4 =? 0)%N then
                  match Byte.of_N (v1 * 4 + v2 / 16),
                        Byte.of_N (v2 mod 16 * 16 + v3 / 4) with
                  | Some x, Some y => Some [x; y]
                  | _, _ => None
                  end
                else None
              else
                match b64_value c4 with
                | Some v4 =>
                    match Byte.of_N (v1 * 4 + v2 / 16),
                          Byte.of_N (v2 mod 16 * 16 + v3 / 4),
                          Byte.of_N (v3 mod 4 * 64 + v4),
                          b64decode rest with
                    | Some x, Some y, Some z, Some more =>
                        Some (x :: y :: z :: more)
                    | _, _, _, _ => None
                    end
                | None => None
                end
          | None => None
          end
    | _, _ => None
    end.
Proof. reflexivity. Qed.

Lemma b64decode_b64encode (bs : list byte) :
  b64decode (Base64.b64encode bs) = Some bs.
Proof.
  assert (H : forall n bs, (length bs <= n)%nat ->
                b64decode (Base64.b64encode bs) = Some bs).
  { clear bs. induction n as [|n IH]; intros bs Hn.
    - destruct bs; [reflexivity|simpl in Hn; lia].
    - destruct bs as [|a [|b [|c rest]]]; [reflexivity| | |].
      + cbn [Base64.b64encode].
        destruct (b64_arith_one _ (byte_bound a)) as (B1 & B2 & E1 & E2).
        rewrite b64decode_quad.
        rewrite (proj1 (b64_value_digit _ B1)), (proj1 (b64_value_digit _ B2)).
        change (is_pad Base64.pad) with true. cbv iota.
        rewrite E1, E2, Byte.of_to_N. reflexivity.
      + cbn [Base64.b64encode].
        destruct (b64_arith_two _ _ (byte_bound a) (byte_bound b))
          as (B1 & B2 & B3 & E0 & E1 & E2).
        rewrite b64decode_quad.
        rewrite (proj1 (b64_value_digit _ B1)), (proj1 (b64_value_digit _ B2)).
        rewrite (proj2 (b64_value_digit _ B3)), (proj1 (b64_value_digit _ B3)).
        change (is_pad Base64.pad) with true. cbv iota.
        rewrite E0, E1, E2, !Byte.of_to_N. reflexivity.
      + cbn [Base64.b64encode].
        destruct (b64_arith _ _ _ (byte_bound a) (byte_bound b) (byte_bound c))
          as (B1 & B2 & B3 & B4 & E1 & E2 & E3).
        rewrite b64decode_quad.
        rewrite (proj1 (b64_value_digit _ B1)), (proj1 (b64_value_digit _ B2)).
        rewrite (proj2 (b64_value_digit _ B3)), (proj1 (b64_value_digit _ B3)).
        rewrite (proj2 (b64_value_digit _ B4)), (proj1 (b64_value_digit _ B4)).
        rewrite E1, E2, E3, !Byte.of_to_N.
        rewrite IH by (cbn [length] in Hn; lia). reflexivity. }
  now apply (H (length bs)).
Qed.

Lemma b64encode_length (bs : list byte) :
  String.length (Base64.b64encode bs) = (4 * ((length bs + 2) / 3))%nat.
Proof.
  assert (H : forall n bs, (length bs <= n)%nat ->
                String.length (Base64.b64encode bs)
                = (4 * ((length bs + 2) / 3))%nat).
  { clear bs. induction n as [|n IH]; intros bs Hn.
    - destruct bs; [reflexivity|simpl in Hn; lia].
    - destruct bs as [|a [|b [|c rest]]]; [reflexivity|reflexivity|reflexivity|].
      cbn [Base64.b64encode String.length length].
      rewrite IH by (cbn [length] in Hn; lia).
      replace (S (S (S (length rest))) + 2)%nat
        with ((length rest + 2) + 1 * 3)%nat by lia.
      rewrite Nat.div_add by discriminate. lia. }
  now apply (H (length bs)).
Qed.

(** C7. A bytes value is rendered from its base64 text, which escaping
    leaves as it is. That text is the standard one: read back as RFC 4648
    prescribes it gives the bytes, it has four characters for every three
    bytes or part of three, and it agrees with the test vectors of the RFC.
    The document [data: !!binary aGVsbG8=] is reconstructed as the one line
    [data: ] followed by [aGVsbG8=] between double quotes. *)
Theorem render_binary `{Formatter} (k : string) (b : list byte) (n : Z)
    (source_line : string) :
  render (mkYAMLValue (PyStr k) (PyBytes b) n source_line)
    = Ok (k ++ ": " ++ quote ++ Base64.b64encode b ++ quote
            ++ comment_of source_line)
  /\ b64decode (Base64.b64encode b) = Some b
  /\ String.length (Base64.b64encode b) = (4 * ((length b + 2) / 3))%nat
  /\ map Base64.b64encode
       [ []; [x66]; [x66; x6f]; [x66; x6f; x6f]; [x66; x6f; x6f; x62];
         [x66; x6f; x6f; x62; x61]; [x66; x6f; x6f; x62; x61; x72];
         [x68; x65; x6c; x6c; x6f]; [xfb; xff]; [x00; x10; x83] ]%byte
     = [ EmptyString; "Zg=="; "Zm8="; "Zm9v"; "Zm9vYg=="; "Zm9vYmE=";
         "Zm9vYmFy"; "aGVsbG8="; "+/8="; "ABCD" ]
  /\ @parse_file (loads doc_binary (Ok data_binary)) _
       (mkNamedIO "binary.yaml" doc_binary)
     = Ok [ "data: " ++ quote ++ "aGVsbG8=" ++ quote ].
Proof.
  split; [apply (render_bytes (PyStr k))|].
  split; [apply b64decode_b64encode|].
  split; [apply b64encode_length|].
  split; reflexivity.
Qed.

(* ================================================================== *)
(** * Exceptions of the shims that leave [parse_file] *)

Lemma getitem_beyond {A : Type} (l : list A) (i : Z) :
  Z.of_nat (length l) <= i -> Py.getitem l i = Raise IndexError.
Proof.
  intros Hi. unfold Py.getitem.
  destruct (i <? 0) eqn:Hneg; [apply Z.ltb_lt in Hneg; lia|].
  destruct (_ || _) eqn:Hb; [reflexivity|].
  apply orb_false_iff in Hb as [_ Hb]. apply Z.leb_gt in Hb. lia.
Qed.

(** C2. The code on an ill-formed document. In [a: !!map foo] followed by
    a flow sequence that is never closed, the value of [a] is composed
    before the parser reaches the end of the stream. Its tag ends in
    [:map], so the shim hands this scalar to [_tag_dict_values], whose loop
    unpacks the first character of its text as a pair: [ValueError], as for
    every scalar of that tag that holds text. The exception leaves the
    loader; it is no [yaml.YAMLError], and so it leaves [parse_file] as it
    is, where the same document without the tag ends in [ParsingError]. *)
Theorem parse_file_ill_formed_ValueError :
  (forall t c s sm em fs ln,
     _tag_dict_values (mkNode ScalarNode t (VStr (String c s)) sm em fs ln)
     = Raise ValueError)
  /\ @_compose_node_shim unit unit (fixed_internals (scalar map_tag "foo" None))
       (Some (mkNode MappingNode map_tag (VMap []) None None (Some false) None))
       (Some (scalar str_tag "a" (Some 1)))
       (scanned_to doc_tagged_scalar 0)
     = Raise ValueError
  /\ @get_single_data
       (composing_loader composer_tagged_scalar (scanned_to doc_tagged_scalar 0))
       doc_tagged_scalar
     = Raise ValueError
  /\ @parse_file
       (composing_loader composer_tagged_scalar (scanned_to doc_tagged_scalar 0))
       strings_only (mkNamedIO "tagged.yaml" doc_tagged_scalar)
     = Raise ValueError
  /\ @parse_file
       (composing_loader composer_unclosed (scanned_to doc_unclosed 0))
       strings_only (mkNamedIO "unclosed.yaml" doc_unclosed)
     = Raise ParsingError
  /\ (forall (L : SafeLoader) (F : Formatter) (file : NamedIO) (e : exn),
        @get_single_data L (read file) = Raise e ->
        @parse_file L F file
        = Raise (match e with YAMLError => ParsingError | _ => e end)).
Proof.
  split; [reflexivity|]. split; [reflexivity|]. split; [reflexivity|].
  split; [reflexivity|]. split; [reflexivity|].
  intros L F file e. apply parse_file_loader_raises.
Qed.

(** C10. The code on a well-formed document. In [[a: b]] followed by two
    blank lines the scanner has read to the end of the stream, line 3
    counted from 0, when the nodes are composed; the flag being clear, the
    shim stamps the value [b] with the line of the cursor plus one, 4, in a
    document of three lines. The lookup of that line in the iteration is
    out of range: [IndexError], which leaves [parse_file]. So it is for
    every rewritten value stamped beyond the last line. *)
Theorem line_lookup_out_of_range :
  Py.splitlines doc_flow_sequence = [ "[a: b]"; EmptyString; EmptyString ]
  /\ @_compose_node_shim unit unit composer_flow_sequence None None
       (scanned_to doc_flow_sequence 3)
     = Ok (mkNode SequenceNode seq_tag
             (VSeq [ mkNode MappingNode map_tag
                       (VMap [ (scalar str_tag "a" (Some 4),
                                new_MappingNode map_tag
                                  (three_fields (scalar str_tag "a" (Some 4))
                                     (scalar str_tag "b" (Some 4)) 4)) ])
                       None None (Some true) None ])
             None None (Some true) (Some 4),
           scanned_to doc_flow_sequence 3)
  /\ @get_single_data
       (composing_loader composer_flow_sequence (scanned_to doc_flow_sequence 3))
       doc_flow_sequence
     = Ok (PyList [ PyDict [ (PyStr "a", annotated "a" (PyStr "b") 4) ] ])
  /\ @YAMLFileParser_iter
       (composing_loader composer_flow_sequence (scanned_to doc_flow_sequence 3))
       doc_flow_sequence
     = Raise IndexError
  /\ @parse_file
       (composing_loader composer_flow_sequence (scanned_to doc_flow_sequence 3))
       strings_only (mkNamedIO "sequence.yaml" doc_flow_sequence)
     = Raise IndexError
  /\ (forall (lines : list string) (k : string) (v : PyValue) (n : Z)
             (rest : list PyValue),
        Z.of_nat (length lines) < n ->
        flatten lines (annotated k v n :: rest) = Raise IndexError).
Proof.
  split; [reflexivity|]. split; [reflexivity|]. split; [reflexivity|].
  split; [reflexivity|]. split; [reflexivity|].
  intros lines k v n rest Hn. rewrite flatten_cons.
  unfold visit, make_value, annotated. cbn.
  rewrite getitem_beyond by lia. reflexivity.
Qed.
